(** * Encrypted configuration exchange of antigravity-agent

    A shallow embedding of the configuration store [useConfigStore]
    (the module App.tsx imports as
    modules/config-management/useConfigStore) and of the password dialog
    plumbing of App.tsx: [importConfig], [exportConfig], the two
    [onSubmit] callbacks, [validatePassword], [showPasswordDialog],
    [closePasswordDialog] and [handlePasswordDialogCancel].

    The flows are asynchronous functions that talk to the user (file
    dialogs, password dialog) and to the Rust backend (Tauri [invoke]).
    They are written here in a state and exception monad that also
    records every such call as an [event], stamped with the flags that
    were current when it was made; ordering and "never invoked"
    properties are then statements about the recorded run, for every
    possible answer of the collaborators.

    The store module calls [showStatus] in fifteen places but neither
    imports, defines nor receives it: each of these calls throws a
    ReferenceError, and the flows are embedded with exactly that
    behaviour. *)

From Stdlib Require Import String Ascii List ZArith Lia Bool Floats.
Import ListNotations.
Open Scope string_scope.

(* ================================================================== *)
(** ** JavaScript values as produced by [JSON.parse] *)
(* ================================================================== *)

Module JS.

#[local] Set Warnings "-register-all".

(** A decoded JSON document.  Numbers are IEEE doubles, objects are
    their own-property lists. *)
Inductive value : Type :=
| Null
| Bool (b : bool)
| Num (f : float)
| Str (s : string)
| Arr (items : list value)
| Obj (fields : list (string * value)).

(** What is thrown: an [Error] object carrying a message, or any other
    thrown value already rendered by [String(error)] (Tauri rejects
    [invoke] with a plain string). *)
Inductive error : Type :=
| ErrorObj (message : string)
| Thrown (rendered : string).

(** [error instanceof Error ? error.message : String(error)] *)
Definition error_text (e : error) : string :=
  match e with
  | ErrorObj m => m
  | Thrown s => s
  end.

Inductive result (A : Type) : Type :=
| Ok (a : A)
| Throw (e : error).
Arguments Ok {A} a.
Arguments Throw {A} e.

Fixpoint assoc (k : string) (fields : list (string * value)) : option value :=
  match fields with
  | [] => None
  | (k', v) :: rest => if String.eqb k k' then Some v else assoc k rest
  end.

(** Property read [x.k] for an own data property name [k] that no
    prototype defines (such as [version], [backups], [backupCount]).
    [None] is [undefined]; reading a property of [null] throws a
    TypeError. *)
Definition get (x : value) (k : string) : result (option value) :=
  match x with
  | Null => Throw (ErrorObj "Cannot read properties of null")
  | Obj fields => Ok (assoc k fields)
  | _ => Ok None
  end.

(** ToBoolean. *)
Definition truthy (x : value) : bool :=
  match x with
  | Null => false
  | Bool b => b
  | Num f => negb (PrimFloat.eqb f 0%float || PrimFloat.is_nan f)
  | Str s => negb (String.eqb s "")
  | Arr _ => true
  | Obj _ => true
  end.

(** ToBoolean of a possibly [undefined] value. *)
Definition truthy_opt (x : option value) : bool :=
  match x with
  | None => false
  | Some v => truthy v
  end.

(** [Array.isArray(x)] for a possibly [undefined] value. *)
Definition isArray (x : option value) : bool :=
  match x with
  | Some (Arr _) => true
  | _ => false
  end.

(** The number that [xs.length] is. *)
Definition length_num {A : Type} (xs : list A) : float :=
  PrimFloat.of_uint63 (Uint63.of_Z (Z.of_nat (List.length xs))).

(** [s.length] for the text whose UTF-8 encoding is [s]: the number of
    UTF-16 code units, that is one for every code point and two for a
    code point outside the basic plane (a four-byte sequence).
    Continuation bytes count nothing. *)
Definition units_of_byte (c : ascii) : nat :=
  let n := nat_of_ascii c in
  if (n <? 128)%nat then 1
  else if (n <? 192)%nat then 0
  else if (n <? 240)%nat then 1
  else 2.

Fixpoint length (s : string) : nat :=
  match s with
  | EmptyString => 0
  | String c rest => units_of_byte c + length rest
  end.

(** The ReferenceError thrown when an identifier that is bound nowhere
    is evaluated. *)
Definition ReferenceError (identifier : string) : error :=
  ErrorObj (identifier ++ " is not defined").

(** The result of a file dialog: [null], one path, or several paths. *)
Inductive selection : Type :=
| NoSelection
| Path (p : string)
| Paths (ps : list string).

(** [!selected || typeof selected !== 'string'] negated: the chosen
    path when the test lets the flow continue.  The empty string is
    falsy. *)
Definition chosen_path (selected : selection) : option string :=
  match selected with
  | Path p => if String.eqb p "" then None else Some p
  | _ => None
  end.

End JS.

(* ================================================================== *)
(** ** Data shapes of the store module *)
(* ================================================================== *)

(** [interface BackupData] *)
Record BackupData : Type := {
  filename : string;
  content : JS.value;
  timestamp : float
}.

(** [interface EncryptedConfigData]; [backupCount] is always built from
    an array length. *)
Record EncryptedConfigData : Type := {
  version : string;
  backupCount : nat;
  backups : list BackupData
}.

(** [interface RestoreResult] (declared inside the import callback). *)
Record RestoreResult : Type := {
  restoredCount : Z;
  failed : list (string * string)
}.

(** [interface ConfigState] *)
Record ConfigState : Type := {
  isImporting : bool;
  isExporting : bool;
  isCheckingData : bool
}.

(** The initial state of [useConfigStore]. *)
Definition initial_ConfigState : ConfigState :=
  {| isImporting := false; isExporting := false; isCheckingData := false |}.

(** The return value of [validatePassword]. *)
Record validation : Type := {
  isValid : bool;
  message : option string
}.

(** The two [onSubmit] closures the store hands to the dialog, with the
    variables they capture, and the initial [() => {}] of App.tsx. *)
Inductive submit_closure : Type :=
| NoOp
| ImportSubmit (fileContent : string)
| ExportSubmit (backupsWithContent : list BackupData).

(** The [passwordDialog] state of [AppContent]. *)
Record PasswordDialogState : Type := {
  isOpen : bool;
  title : string;
  description : string;
  requireConfirmation : bool;
  onSubmit : submit_closure;
  validatePassword : option (string -> validation)
}.

Definition initial_passwordDialog : PasswordDialogState :=
  {| isOpen := false; title := ""; description := "";
     requireConfirmation := false; onSubmit := NoOp;
     validatePassword := None |}.

(** [interface PasswordDialogConfig] *)
Record PasswordDialogConfig : Type := {
  cfg_title : string;
  cfg_description : option string;
  cfg_requireConfirmation : option bool;
  cfg_onSubmit : submit_closure;
  cfg_validatePassword : option (string -> validation)
}.

(* ================================================================== *)
(** ** Events *)
(* ================================================================== *)

(** Tauri commands reached through [invoke]. *)
Inductive command : Type :=
| decrypt_config_data (encryptedData password : string)
| restore_backup_files (backups : list JS.value)
| collect_backup_contents
| encrypt_config_data (jsonData password : string)
| write_text_file (path content : string).

Definition response (c : command) : Type :=
  match c with
  | decrypt_config_data _ _ => string
  | restore_backup_files _ => RestoreResult
  | collect_backup_contents => list BackupData
  | encrypt_config_data _ _ => string
  | write_text_file _ _ => unit
  end.

Inductive level : Type := Info | Warn | Error | Debug.

(** The texts written as first argument of [showStatus].  Literals are
    kept as they are, template literals keep the interpolated values as
    arguments. *)
Inductive text : Type :=
| Lit (s : string)
| ImportedAll (restoredCount : Z)
    (* `配置文件导入成功，已恢复 ${restoredCount} 个账户` *)
| ImportedPartial (restoredCount : Z) (failedCount : nat)
    (* `配置文件导入成功，已恢复 ${restoredCount} 个账户，${failed.length} 个失败` *)
| DecryptFailed (reason : string)        (* `配置文件解密失败: ${...}` *)
| FileOperationFailed (reason : string)  (* `文件操作失败: ${...}` *)
| Saved (savePath : string)              (* `配置文件已保存: ${savePath}` *)
| ExportFailed (reason : string)         (* `导出配置文件失败: ${...}` *)
| CollectFailed (reason : string).       (* `检查数据失败: ${...}` *)

Inductive patch : Type :=
| SetImporting (b : bool)
| SetExporting (b : bool).

Inductive event : Type :=
| Log (l : level) (msg : string)
| DialogOpen
| DialogSave (defaultPath : string)
| ReadFile (path : string)
| JSONparse (source : string)
| JSONstringify (configData : EncryptedConfigData)
| Invoke (c : command)
| StoreSet (p : patch)
| ShowPasswordDialog (config : PasswordDialogConfig)
| ClosePasswordDialog
| ToastError (msg : string).

(** What the rest of the application could observe when an event
    happened. *)
Record view : Type := {
  importing : bool;
  exporting : bool;
  dialogOpen : bool
}.

Definition entry : Type := view * event.

(* ================================================================== *)
(** ** The world outside the store *)
(* ================================================================== *)

(** Answers of the collaborators.  [B] is the state of the Rust backend
    (snapshot repository and file system).  The codec commands are pure,
    [collect_backup_contents] only reads, [restore_backup_files] and
    [write_text_file] may change the backend. *)
Record World (B : Type) : Type := {
  on_open : JS.result JS.selection;
  on_save : string -> JS.result JS.selection;
  on_readFile : string -> JS.result (list Byte.byte);
  TextDecoder_decode : list Byte.byte -> string;
  JSON_parse : string -> JS.result JS.value;
  JSON_stringify : EncryptedConfigData -> string;
  Date_toISOString : string;
  do_decrypt : string -> string -> JS.result string;
  do_encrypt : string -> string -> JS.result string;
  do_collect : B -> JS.result (list BackupData);
  do_restore : list JS.value -> B -> B * JS.result RestoreResult;
  do_write : string -> string -> B -> B * JS.result unit
}.
Arguments on_open {B} _.
Arguments on_save {B} _ _.
Arguments on_readFile {B} _ _.
Arguments TextDecoder_decode {B} _ _.
Arguments JSON_parse {B} _ _.
Arguments JSON_stringify {B} _ _.
Arguments Date_toISOString {B} _.
Arguments do_decrypt {B} _ _ _.
Arguments do_encrypt {B} _ _ _.
Arguments do_collect {B} _ _.
Arguments do_restore {B} _ _ _.
Arguments do_write {B} _ _ _ _.

(** Everything that is mutable: the Zustand store, the React state of
    the password dialog, and the backend. *)
Record Sys (B : Type) : Type := {
  store : ConfigState;
  passwordDialog : PasswordDialogState;
  backend : B
}.
Arguments store {B} _.
Arguments passwordDialog {B} _.
Arguments backend {B} _.
Arguments Build_Sys {B} _ _ _.

Definition view_of {B : Type} (s : Sys B) : view :=
  {| importing := isImporting (store s);
     exporting := isExporting (store s);
     dialogOpen := isOpen (passwordDialog s) |}.

(* ================================================================== *)
(** ** A state, exception and trace monad for the async flows *)
(* ================================================================== *)

Record Out (B A : Type) : Type := {
  value : JS.result A;
  after : Sys B;
  emitted : list entry
}.
Arguments value {B A} _.
Arguments after {B A} _.
Arguments emitted {B A} _.
Arguments Build_Out {B A} _ _ _.

Definition M (B A : Type) : Type := Sys B -> Out B A.

Definition ret {B A : Type} (a : A) : M B A :=
  fun s => {| value := JS.Ok a; after := s; emitted := [] |}.

Definition throw {B A : Type} (e : JS.error) : M B A :=
  fun s => {| value := JS.Throw e; after := s; emitted := [] |}.

Definition bind {B A C : Type} (m : M B A) (k : A -> M B C) : M B C :=
  fun s =>
    match m s with
    | Build_Out (JS.Ok a) s1 t1 =>
        match k a s1 with
        | Build_Out r s2 t2 => Build_Out r s2 (t1 ++ t2)
        end
    | Build_Out (JS.Throw e) s1 t1 => Build_Out (JS.Throw e) s1 t1
    end.

Declare Scope flow_scope.
Delimit Scope flow_scope with flow.
Notation "x <- m ;; k" := (bind m (fun x => k))
  (at level 61, m at next level, right associativity) : flow_scope.
Notation "m ;; k" := (bind m (fun _ => k))
  (at level 61, right associativity) : flow_scope.
Open Scope flow_scope.

(** [try { body } catch (error) { handler }] *)
Definition try_catch {B A : Type} (body : M B A) (handler : JS.error -> M B A)
  : M B A :=
  fun s =>
    match body s with
    | Build_Out (JS.Ok a) s1 t1 => Build_Out (JS.Ok a) s1 t1
    | Build_Out (JS.Throw e) s1 t1 =>
        match handler e s1 with
        | Build_Out r s2 t2 => Build_Out r s2 (t1 ++ t2)
        end
    end.

(** [try { body } finally { fin }]: [fin] always runs; the completion is
    that of [body] unless [fin] itself throws. *)
Definition try_finally {B A : Type} (body : M B A) (fin : M B unit) : M B A :=
  fun s =>
    match body s with
    | Build_Out r s1 t1 =>
        match fin s1 with
        | Build_Out (JS.Ok _) s2 t2 => Build_Out r s2 (t1 ++ t2)
        | Build_Out (JS.Throw e) s2 t2 => Build_Out (JS.Throw e) s2 (t1 ++ t2)
        end
    end.

(** Record one event, stamped with the current view. *)
Definition emit {B : Type} (e : event) : M B unit :=
  fun s => {| value := JS.Ok tt; after := s; emitted := [(view_of s, e)] |}.

Definition events {B A : Type} (o : Out B A) : list event :=
  map snd (emitted o).

(* ================================================================== *)
(** ** Primitive operations of the flows *)
(* ================================================================== *)

Section Flows.

Context {B : Type}.
Variable W : World B.

(** [logger.info/warn/error(msg, meta)]; the metadata object is not
    kept. *)
Definition logger (l : level) (msg : string) : M B unit := emit (Log l msg).

(** [showStatus(message, isError)] as the store module has it: the
    identifier is not imported, not defined and not a parameter of
    [importConfig] or [exportConfig], so evaluating the call throws a
    ReferenceError before any argument is looked at, and nothing is
    shown. *)
Definition showStatus (t : text) (isError : bool) : M B unit :=
  throw (JS.ReferenceError "showStatus").

(** [toast.error(msg)] *)
Definition toast_error (msg : string) : M B unit := emit (ToastError msg).

(** Zustand [set({ isImporting })] and [set({ isExporting })]. *)
Definition set (p : patch) : M B unit :=
  emit (StoreSet p) ;;
  fun s =>
    let st := store s in
    let st' :=
      match p with
      | SetImporting b =>
          {| isImporting := b; isExporting := isExporting st;
             isCheckingData := isCheckingData st |}
      | SetExporting b =>
          {| isImporting := isImporting st; isExporting := b;
             isCheckingData := isCheckingData st |}
      end in
    {| value := JS.Ok tt;
       after := Build_Sys st' (passwordDialog s) (backend s);
       emitted := [] |}.

(** Lift an answer of the world into the flow: [await] of a promise that
    resolves or rejects. *)
Definition await {A : Type} (r : JS.result A) : M B A :=
  match r with
  | JS.Ok a => ret a
  | JS.Throw e => throw e
  end.

(** [open({title, filters, multiple: false})] of plugin-dialog. *)
Definition open : M B JS.selection :=
  emit DialogOpen ;; await (on_open W).

(** [save({title, defaultPath, filters})] of plugin-dialog. *)
Definition save (defaultPath : string) : M B JS.selection :=
  emit (DialogSave defaultPath) ;; await (on_save W defaultPath).

(** [readFile(path)] of plugin-fs followed by [new TextDecoder().decode]. *)
Definition readFile (path : string) : M B (list Byte.byte) :=
  emit (ReadFile path) ;; await (on_readFile W path).

Definition parse (source : string) : M B JS.value :=
  emit (JSONparse source) ;; await (JSON_parse W source).

Definition stringify (configData : EncryptedConfigData) : M B string :=
  emit (JSONstringify configData) ;; ret (JSON_stringify W configData).

(** [invoke(command, args)] *)
Definition invoke (c : command) : M B (response c) :=
  emit (Invoke c) ;;
  match c return M B (response c) with
  | decrypt_config_data encryptedData password =>
      await (do_decrypt W encryptedData password)
  | encrypt_config_data jsonData password =>
      await (do_encrypt W jsonData password)
  | collect_backup_contents =>
      fun s => await (do_collect W (backend s)) s
  | restore_backup_files backups =>
      fun s =>
        let (b', r) := do_restore W backups (backend s) in
        await r (Build_Sys (store s) (passwordDialog s) b')
  | write_text_file path content =>
      fun s =>
        let (b', r) := do_write W path content (backend s) in
        await r (Build_Sys (store s) (passwordDialog s) b')
  end.

(** App.tsx [showPasswordDialog]: opens the dialog with the given
    configuration ([config.description || ''],
    [config.requireConfirmation || false]). *)
Definition showPasswordDialog (config : PasswordDialogConfig) : M B unit :=
  emit (ShowPasswordDialog config) ;;
  fun s =>
    {| value := JS.Ok tt;
       after :=
         Build_Sys (store s)
           {| isOpen := true;
              title := cfg_title config;
              description :=
                match cfg_description config with
                | Some d => d
                | None => ""
                end;
              requireConfirmation :=
                match cfg_requireConfirmation config with
                | Some b => b
                | None => false
                end;
              onSubmit := cfg_onSubmit config;
              validatePassword := cfg_validatePassword config |}
           (backend s);
       emitted := [] |}.

(** App.tsx [closePasswordDialog]: [prev => ({...prev, isOpen: false})]. *)
Definition closePasswordDialog : M B unit :=
  emit ClosePasswordDialog ;;
  fun s =>
    let d := passwordDialog s in
    {| value := JS.Ok tt;
       after :=
         Build_Sys (store s)
           {| isOpen := false; title := title d;
              description := description d;
              requireConfirmation := requireConfirmation d;
              onSubmit := onSubmit d;
              validatePassword := validatePassword d |}
           (backend s);
       emitted := [] |}.

(** App.tsx [handlePasswordDialogCancel]. *)
Definition handlePasswordDialogCancel : M B unit :=
  closePasswordDialog ;; toast_error "操作已取消".

(* ================================================================== *)
(** ** Password policy and payload validation *)
(* ================================================================== *)

(** The [validatePassword] passed by [importConfig]; [password.length]
    counts UTF-16 code units. *)
Definition import_validatePassword (password : string) : validation :=
  if (JS.length password <? 4)%nat
  then {| isValid := false; message := Some "密码长度至少为4位" |}
  else if (50 <? JS.length password)%nat
  then {| isValid := false; message := Some "密码长度不能超过50位" |}
  else {| isValid := true; message := None |}.

(** The [validatePassword] passed by [exportConfig]. *)
Definition export_validatePassword (password : string) : validation :=
  if (JS.length password <? 4)%nat
  then {| isValid := false; message := Some "密码长度至少为4位" |}
  else if (50 <? JS.length password)%nat
  then {| isValid := false; message := Some "密码长度不能超过50位" |}
  else {| isValid := true; message := None |}.

(** [if (!configData.version || !configData.backups ||
        !Array.isArray(configData.backups)) throw new Error(...)].
    On success the function hands back [configData.backups], the array
    that is passed on to [restore_backup_files]. *)
Definition validate_config (configData : JS.value)
  : JS.result (list JS.value) :=
  match JS.get configData "version" with
  | JS.Throw e => JS.Throw e
  | JS.Ok version =>
      if negb (JS.truthy_opt version)
      then JS.Throw (JS.ErrorObj "配置文件格式无效")
      else
        match JS.get configData "backups" with
        | JS.Throw e => JS.Throw e
        | JS.Ok backups =>
            if negb (JS.truthy_opt backups)
            then JS.Throw (JS.ErrorObj "配置文件格式无效")
            else
              match backups with
              | Some (JS.Arr items) => JS.Ok items
              | _ => JS.Throw (JS.ErrorObj "配置文件格式无效")
              end
        end
  end.

(* ================================================================== *)
(** ** importConfig *)
(* ================================================================== *)

(** The [onSubmit] callback built by [importConfig]; [fileContent] is
    the captured variable. *)
Definition import_onSubmit (fileContent password : string) : M B unit :=
  try_finally
    (try_catch
       (closePasswordDialog ;;
        set (SetImporting true) ;;
        showStatus (Lit "正在解密配置文件...") false ;;
        decryptedJson <- invoke (decrypt_config_data fileContent password) ;;
        configData <- parse decryptedJson ;;
        backups <- await (validate_config configData) ;;
        logger Info "开始恢复备份数据" ;;
        showStatus (Lit "正在恢复账户数据...") false ;;
        result <- invoke (restore_backup_files backups) ;;
        if (0 <? List.length (failed result))%nat
        then
          logger Warn "部分文件恢复失败" ;;
          showStatus
            (ImportedPartial (restoredCount result)
               (List.length (failed result))) false
        else
          logger Info "所有文件恢复成功" ;;
          showStatus (ImportedAll (restoredCount result)) false)
       (fun error =>
          logger Error "解密失败" ;;
          showStatus (DecryptFailed (JS.error_text error)) true))
    (set (SetImporting false)).

(** The object literal [importConfig] passes to [showPasswordDialog]. *)
Definition import_dialog (fileContent : string) : PasswordDialogConfig :=
  {| cfg_title := "导入配置文件";
     cfg_description := Some "请输入配置文件的解密密码";
     cfg_requireConfirmation := Some false;
     cfg_validatePassword := Some import_validatePassword;
     cfg_onSubmit := ImportSubmit fileContent |}.

Definition importConfig : M B unit :=
  logger Info "开始导入配置文件" ;;
  try_catch
    (selected <- open ;;
     match JS.chosen_path selected with
     | None =>
         logger Warn "未选择文件" ;;
         showStatus (Lit "未选择文件") true
     | Some selected =>
         logger Info "已选择文件" ;;
         fileContentUint8Array <- readFile selected ;;
         let fileContent := TextDecoder_decode W fileContentUint8Array in
         if (String.length fileContent =? 0)%nat
         then
           logger Warn "文件内容为空" ;;
           showStatus (Lit "文件内容为空") true
         else
           showPasswordDialog (import_dialog fileContent)
     end)
    (fun error =>
       logger Error "文件操作失败" ;;
       showStatus (FileOperationFailed (JS.error_text error)) true).

(* ================================================================== *)
(** ** exportConfig *)
(* ================================================================== *)

(** [s.replace(/:/g, '-')] *)
Fixpoint replace_colons (s : string) : string :=
  match s with
  | EmptyString => EmptyString
  | String c rest =>
      String (if Ascii.eqb c ":" then "-"%char else c) (replace_colons rest)
  end.

(** [`antigravity_encrypted_config_${timestamp}.enc`] with
    [timestamp = new Date().toISOString().slice(0, 19).replace(/:/g, '-')]. *)
Definition defaultFileName : string :=
  "antigravity_encrypted_config_"
  ++ replace_colons (substring 0 19 (Date_toISOString W))
  ++ ".enc".

(** The [configData] object the export callback builds. *)
Definition configData (backupsWithContent : list BackupData)
  : EncryptedConfigData :=
  {| version := "1.1.0";
     backupCount := List.length backupsWithContent;
     backups := backupsWithContent |}.

(** The [onSubmit] callback built by [exportConfig];
    [backupsWithContent] is the captured variable. *)
Definition export_onSubmit (backupsWithContent : list BackupData)
    (password : string) : M B unit :=
  try_finally
    (try_catch
       (closePasswordDialog ;;
        set (SetExporting true) ;;
        showStatus (Lit "正在生成加密配置文件...") false ;;
        configJson <- stringify (configData backupsWithContent) ;;
        logger Info "配置数据已生成" ;;
        encryptedData <- invoke (encrypt_config_data configJson password) ;;
        savePath <- save defaultFileName ;;
        match JS.chosen_path savePath with
        | None =>
            logger Warn "未选择保存位置" ;;
            showStatus (Lit "未选择保存位置") true
        | Some savePath =>
            invoke (write_text_file savePath encryptedData) ;;
            showStatus (Saved savePath) false ;;
            logger Info "导出配置成功"
        end)
       (fun error =>
          logger Error "导出失败" ;;
          showStatus (ExportFailed (JS.error_text error)) true))
    (set (SetExporting false)).

(** The object literal [exportConfig] passes to [showPasswordDialog]. *)
Definition export_dialog (backupsWithContent : list BackupData)
  : PasswordDialogConfig :=
  {| cfg_title := "导出配置文件";
     cfg_description := Some "请设置导出密码，用于保护您的配置文件";
     cfg_requireConfirmation := Some true;
     cfg_validatePassword := Some export_validatePassword;
     cfg_onSubmit := ExportSubmit backupsWithContent |}.

Definition exportConfig : M B unit :=
  logger Info "开始导出配置" ;;
  try_catch
    (showStatus (Lit "正在收集账户数据...") false ;;
     backupsWithContent <- invoke collect_backup_contents ;;
     if (List.length backupsWithContent =? 0)%nat
     then
       logger Warn "没有找到用户信息" ;;
       showStatus (Lit "没有找到任何用户信息，无法导出配置文件") true
     else
       logger Info "找到备份数据" ;;
       showPasswordDialog (export_dialog backupsWithContent))
    (fun error =>
       logger Error "检查数据失败" ;;
       showStatus (CollectFailed (JS.error_text error)) true).

(* ================================================================== *)
(** ** The password dialog and the user in front of it *)
(* ================================================================== *)

(** Calling the closure stored in [passwordDialog.onSubmit]. *)
Definition run_onSubmit (f : submit_closure) (password : string) : M B unit :=
  match f with
  | NoOp => ret tt
  | ImportSubmit fileContent => import_onSubmit fileContent password
  | ExportSubmit backupsWithContent =>
      export_onSubmit backupsWithContent password
  end.

(** Modelled from the spec: the [PasswordDialog] component
    (components/PasswordDialog) is not among the sources.  Following
    section 6, it supplies one password, or a confirmed pair when
    [requireConfirmation] is set, applies the synchronous
    [validatePassword] callback before accepting the input, and only then
    calls [onSubmit]; a rejected input leaves the dialog open. *)
Definition PasswordDialog_submit (password confirmPassword : string)
  : M B unit :=
  fun s =>
    let d := passwordDialog s in
    if negb (isOpen d) then ret tt s
    else
      let accepted :=
        match validatePassword d with
        | Some validate => isValid (validate password)
        | None => true
        end in
      if negb accepted then ret tt s
      else if requireConfirmation d
              && negb (String.eqb password confirmPassword)
      then ret tt s
      else run_onSubmit (onSubmit d) password s.

(** What the user does with the password dialog: submit an input, press
    cancel ([onCancel], wired to [handlePasswordDialogCancel]), dismiss
    it ([onOpenChange(false)], wired to [closePasswordDialog]), or leave
    it alone. *)
Inductive gesture : Type :=
| Submit (password confirmPassword : string)
| Cancel
| Dismiss
| Leave.

Definition PasswordDialog_act (g : gesture) : M B unit :=
  fun s =>
    if negb (isOpen (passwordDialog s)) then ret tt s
    else
      match g with
      | Submit password confirmPassword =>
          PasswordDialog_submit password confirmPassword s
      | Cancel => handlePasswordDialogCancel s
      | Dismiss => closePasswordDialog s
      | Leave => ret tt s
      end.

(** One click on "import" (resp. "export") followed by what the user
    does with the password dialog, if it came up. *)
Definition import_session (g : gesture) : M B unit :=
  importConfig ;; PasswordDialog_act g.

Definition export_session (g : gesture) : M B unit :=
  exportConfig ;; PasswordDialog_act g.

End Flows.

(* ================================================================== *)
(** ** Reading a recorded run *)
(* ================================================================== *)

Definition is_restore (e : event) : bool :=
  match e with Invoke (restore_backup_files _) => true | _ => false end.

Definition is_decrypt (e : event) : bool :=
  match e with Invoke (decrypt_config_data _ _) => true | _ => false end.

Definition is_encrypt (e : event) : bool :=
  match e with Invoke (encrypt_config_data _ _) => true | _ => false end.

Definition is_write (e : event) : bool :=
  match e with Invoke (write_text_file _ _) => true | _ => false end.

Definition is_collect (e : event) : bool :=
  match e with Invoke collect_backup_contents => true | _ => false end.

Definition is_invoke (e : event) : bool :=
  match e with Invoke _ => true | _ => false end.

Definition is_codec (e : event) : bool := is_encrypt e || is_decrypt e.

Definition is_read (e : event) : bool :=
  match e with ReadFile _ => true | _ => false end.

Definition is_open_dialog (e : event) : bool :=
  match e with DialogOpen => true | _ => false end.

Definition is_save_dialog (e : event) : bool :=
  match e with DialogSave _ => true | _ => false end.

Definition is_password_prompt (e : event) : bool :=
  match e with ShowPasswordDialog _ => true | _ => false end.

Definition is_stringify (e : event) : bool :=
  match e with JSONstringify _ => true | _ => false end.


Definition is_store_set (e : event) : bool :=
  match e with StoreSet _ => true | _ => false end.

Definition is_error_log (e : event) : bool :=
  match e with Log Error _ => true | _ => false end.

(** [guarded p q l]: every recorded entry satisfying [p] also
    satisfies [q]. *)
Definition guarded (p q : entry -> bool) (l : list entry) : bool :=
  forallb (fun en => implb (p en) (q en)) l.

(** The steps of an export run (section 4.4). *)
Inductive step : Type :=
| Collect | BuildBundle | AcquirePassword | Encrypt | SaveLocation | Persist.



(** The order in which [exportConfig] and its callback are written. *)
Definition export_order : list step :=
  [Collect; AcquirePassword; BuildBundle; Encrypt; SaveLocation; Persist].

(** The order of section 4.4 of the specification. *)
Definition spec_export_order : list step :=
  [Collect; BuildBundle; AcquirePassword; Encrypt; SaveLocation; Persist].

(** Entries at which a run is selecting or reading the file, collecting
    the backup data, or putting up the password dialog. *)
Definition preparing (en : entry) : bool :=
  is_open_dialog (snd en) || is_read (snd en) || is_collect (snd en)
  || is_password_prompt (snd en).

Definition dialog_is_open (en : entry) : bool := dialogOpen (fst en).

Definition importing_down (en : entry) : bool := negb (importing (fst en)).

Definition exporting_down (en : entry) : bool := negb (exporting (fst en)).

(** Toolbar: [interface LoadingState], as assembled in [AppContent]. *)
Record LoadingState : Type := {
  ls_isProcessLoading : bool;
  ls_isImporting : bool;
  ls_isExporting : bool
}.

Definition loadingState (isProcessLoading : bool) (st : ConfigState)
  : LoadingState :=
  {| ls_isProcessLoading := isProcessLoading;
     ls_isImporting := isImporting st;
     ls_isExporting := isExporting st |}.

(** Toolbar: [isAnyLoading], handed to every action button. *)
Definition isAnyLoading (l : LoadingState) : bool :=
  ls_isProcessLoading l || ls_isImporting l || ls_isExporting l.

(** The same system with other flags in the store. *)
Definition with_store {B : Type} (s : Sys B) (flags : ConfigState) : Sys B :=
  {| store := flags; passwordDialog := passwordDialog s;
     backend := backend s |}.

(** The state in which the import callback that started in [s] ends:
    the dialog is closed, [isImporting] is down, the backend is as
    before. *)
Definition aborted_import {B : Type} (s : Sys B) : Sys B :=
  {| store :=
       {| isImporting := false; isExporting := isExporting (store s);
          isCheckingData := isCheckingData (store s) |};
     passwordDialog :=
       {| isOpen := false; title := title (passwordDialog s);
          description := description (passwordDialog s);
          requireConfirmation := requireConfirmation (passwordDialog s);
          onSubmit := onSubmit (passwordDialog s);
          validatePassword := validatePassword (passwordDialog s) |};
     backend := backend s |}.

(** The same for the export callback and [isExporting]. *)
Definition aborted_export {B : Type} (s : Sys B) : Sys B :=
  {| store :=
       {| isImporting := isImporting (store s); isExporting := false;
          isCheckingData := isCheckingData (store s) |};
     passwordDialog :=
       {| isOpen := false; title := title (passwordDialog s);
          description := description (passwordDialog s);
          requireConfirmation := requireConfirmation (passwordDialog s);
          onSubmit := onSubmit (passwordDialog s);
          validatePassword := validatePassword (passwordDialog s) |};
     backend := backend s |}.

(** The state after [showPasswordDialog(config)]. *)
Definition dialog_shown {B : Type} (s : Sys B) (config : PasswordDialogConfig)
  : Sys B :=
  {| store := store s;
     passwordDialog :=
       {| isOpen := true;
          title := cfg_title config;
          description :=
            match cfg_description config with Some d => d | None => "" end;
          requireConfirmation :=
            match cfg_requireConfirmation config with
            | Some b => b
            | None => false
            end;
          onSubmit := cfg_onSubmit config;
          validatePassword := cfg_validatePassword config |};
     backend := backend s |}.

(* ================================================================== *)
(** ** The structural check in the words of the specification *)
(* ================================================================== *)

(** The own field [k] of a decoded payload, if it has one. *)
Definition field (c : JS.value) (k : string) : option JS.value :=
  match c with
  | JS.Obj fields => JS.assoc k fields
  | _ => None
  end.

(** [backupCount == len(backups)] *)
Definition count_matches (c : JS.value) : bool :=
  match field c "backupCount", field c "backups" with
  | Some (JS.Num n), Some (JS.Arr items) =>
      PrimFloat.eqb n (JS.length_num items)
  | _, _ => false
  end.

(** Section 4.3, [fromText]: fails if [version] is missing, [backups]
    is missing or not a sequence, or [backupCount != len(backups)]. *)
Definition spec_fromText_rejects (c : JS.value) : bool :=
  match field c "version" with
  | None => true
  | Some _ => negb (JS.isArray (field c "backups")) || negb (count_matches c)
  end.

(* ================================================================== *)
(** ** A small concrete world *)
(* ================================================================== *)

(** A backend that remembers what it was asked to store. *)
Record Disk : Type := {
  snapshots : list BackupData;
  files : list (string * string);
  restored : list JS.value
}.

Record Script : Type := {
  pick : JS.selection;
  file_bytes : list Byte.byte;
  decrypted : JS.result string;
  parsed : JS.result JS.value;
  restore_failures : list (string * string);
  save_pick : JS.selection
}.

Definition scripted (sc : Script) : World Disk :=
  {| on_open := JS.Ok (pick sc);
     on_save := fun _ => JS.Ok (save_pick sc);
     on_readFile := fun _ => JS.Ok (file_bytes sc);
     TextDecoder_decode := string_of_list_byte;
     JSON_parse := fun _ => parsed sc;
     JSON_stringify := fun _ => "{}";
     Date_toISOString := "2025-01-02T03:04:05.678Z";
     do_decrypt := fun _ _ => decrypted sc;
     do_encrypt := fun jsonData password => JS.Ok (password ++ jsonData);
     do_collect := fun d => JS.Ok (snapshots d);
     do_restore := fun backups d =>
       ({| snapshots := snapshots d; files := files d;
           restored := restored d ++ backups |},
        JS.Ok {| restoredCount :=
                   Z.of_nat (List.length backups)
                   - Z.of_nat (List.length (restore_failures sc));
                 failed := restore_failures sc |});
     do_write := fun path content d =>
       ({| snapshots := snapshots d; files := (path, content) :: files d;
           restored := restored d |}, JS.Ok tt) |}.

Definition one_backup : BackupData :=
  {| filename := "a@example.com.json"; content := JS.Str "state";
     timestamp := 1%float |}.

Definition fresh (d : Disk) : Sys Disk :=
  {| store := initial_ConfigState;
     passwordDialog := initial_passwordDialog;
     backend := d |}.

Definition disk0 : Disk :=
  {| snapshots := [one_backup]; files := []; restored := [] |}.

Definition empty_disk : Disk :=
  {| snapshots := []; files := []; restored := [] |}.

(** A payload whose [backupCount] disagrees with its [backups]. *)
Definition payload_count_mismatch : JS.value :=
  JS.Obj [("version", JS.Str "1.1.0");
          ("backupCount", JS.Num 5%float);
          ("backups", JS.Arr [JS.Str "entry"])].

(** A payload without [version]. *)
Definition payload_no_version : JS.value :=
  JS.Obj [("backupCount", JS.Num 0%float); ("backups", JS.Arr [])].

(** A well-formed payload with three entries. *)
Definition payload_three : JS.value :=
  JS.Obj [("version", JS.Str "1.1.0");
          ("backupCount", JS.Num 3%float);
          ("backups", JS.Arr [JS.Str "e1"; JS.Str "e2"; JS.Str "e3"])].

Definition happy : Script :=
  {| pick := JS.Path "/tmp/config.enc";
     file_bytes := list_byte_of_string "QUJD";
     decrypted := JS.Ok "{...}";
     parsed := JS.Ok payload_three;
     restore_failures := [];
     save_pick := JS.Path "/tmp/out.enc" |}.

Definition with_parsed (r : JS.result JS.value) : Script :=
  {| pick := pick happy; file_bytes := file_bytes happy;
     decrypted := decrypted happy; parsed := r;
     restore_failures := restore_failures happy;
     save_pick := save_pick happy |}.

Definition with_failures (l : list (string * string)) : Script :=
  {| pick := pick happy; file_bytes := file_bytes happy;
     decrypted := decrypted happy; parsed := parsed happy;
     restore_failures := l; save_pick := save_pick happy |}.

Definition open_cancelled : Script :=
  {| pick := JS.NoSelection; file_bytes := file_bytes happy;
     decrypted := decrypted happy; parsed := parsed happy;
     restore_failures := []; save_pick := save_pick happy |}.

Definition save_cancelled : Script :=
  {| pick := pick happy; file_bytes := file_bytes happy;
     decrypted := decrypted happy; parsed := parsed happy;
     restore_failures := []; save_pick := JS.NoSelection |}.

(** A system in which an export is in flight. *)
Definition export_in_flight : Sys Disk :=
  {| store :=
       {| isImporting := false; isExporting := true;
          isCheckingData := false |};
     passwordDialog := initial_passwordDialog;
     backend := disk0 |}.

(* ================================================================== *)
(** ** Reading an import run, and the default file name *)
(* ================================================================== *)

(** The steps of an import run, as [importConfig] and its callback are
    written. *)
Inductive import_step : Type :=
| SelectFile | ReadContent | AskPassword | DecryptContent | ParsePayload
| RestoreBackups.

Definition import_step_of (e : event) : option import_step :=
  match e with
  | DialogOpen => Some SelectFile
  | ReadFile _ => Some ReadContent
  | ShowPasswordDialog _ => Some AskPassword
  | Invoke (decrypt_config_data _ _) => Some DecryptContent
  | JSONparse _ => Some ParsePayload
  | Invoke (restore_backup_files _) => Some RestoreBackups
  | _ => None
  end.

Fixpoint import_steps (l : list event) : list import_step :=
  match l with
  | [] => []
  | e :: rest =>
      match import_step_of e with
      | Some st => st :: import_steps rest
      | None => import_steps rest
      end
  end.

Definition import_order : list import_step :=
  [SelectFile; ReadContent; AskPassword; DecryptContent; ParsePayload;
   RestoreBackups].

(** The steps an import run can reach. *)
Definition reachable_import_order : list import_step :=
  [SelectFile; ReadContent; AskPassword].

(** Does the string contain a colon? *)
Fixpoint has_colon (s : string) : bool :=
  match s with
  | EmptyString => false
  | String c rest => Ascii.eqb c ":" || has_colon rest
  end.

Definition is_set_importing (e : event) : bool :=
  match e with StoreSet (SetImporting _) => true | _ => false end.

Definition is_set_exporting (e : event) : bool :=
  match e with StoreSet (SetExporting _) => true | _ => false end.

(* ================================================================== *)
(** ** Asynchronous handlers outside the store *)
(* ================================================================== *)

(** The remaining hooks, services and components are small asynchronous
    handlers over their own piece of state.  They share one monad:
    state [S], recorded calls [E], and JavaScript exceptions. *)
Module Task.

(** A thrown value: an [Error] object with its [name] and [message], or
    anything else, kept as what [String(value)] gives. *)
Inductive thrown : Type :=
| ErrorObject (name message : string)
| Value (rendered : string).

(** [new Error(message)] *)
Definition new_Error (message : string) : thrown := ErrorObject "Error" message.

(** [error instanceof Error ? error.message : String(error)] *)
Definition message_or_String (error : thrown) : string :=
  match error with
  | ErrorObject _ m => m
  | Value s => s
  end.

(** [String(error)], also what a template literal does:
    [Error.prototype.toString] for an [Error] object. *)
Definition String_of (error : thrown) : string :=
  match error with
  | ErrorObject n m =>
      if String.eqb n "" then m
      else if String.eqb m "" then n
      else n ++ ": " ++ m
  | Value s => s
  end.

Inductive result (A : Type) : Type :=
| Ok (a : A)
| Throw (e : thrown).
Arguments Ok {A} a.
Arguments Throw {A} e.

Record Out (S E A : Type) : Type := {
  value : result A;
  after : S;
  emitted : list E
}.
Arguments value {S E A} _.
Arguments after {S E A} _.
Arguments emitted {S E A} _.
Arguments Build_Out {S E A} _ _ _.

Definition T (S E A : Type) : Type := S -> Out S E A.

Definition ret {S E A : Type} (a : A) : T S E A :=
  fun s => Build_Out (Ok a) s [].

Definition throw {S E A : Type} (e : thrown) : T S E A :=
  fun s => Build_Out (Throw e) s [].

Definition bind {S E A C : Type} (m : T S E A) (k : A -> T S E C) : T S E C :=
  fun s =>
    match m s with
    | Build_Out (Ok a) s1 t1 =>
        match k a s1 with
        | Build_Out r s2 t2 => Build_Out r s2 (t1 ++ t2)
        end
    | Build_Out (Throw e) s1 t1 => Build_Out (Throw e) s1 t1
    end.

(** [try { body } catch (error) { handler }] *)
Definition try_catch {S E A : Type} (body : T S E A)
    (handler : thrown -> T S E A) : T S E A :=
  fun s =>
    match body s with
    | Build_Out (Ok a) s1 t1 => Build_Out (Ok a) s1 t1
    | Build_Out (Throw e) s1 t1 =>
        match handler e s1 with
        | Build_Out r s2 t2 => Build_Out r s2 (t1 ++ t2)
        end
    end.

(** [try { body } finally { fin }] *)
Definition try_finally {S E A : Type} (body : T S E A) (fin : T S E unit)
  : T S E A :=
  fun s =>
    match body s with
    | Build_Out r s1 t1 =>
        match fin s1 with
        | Build_Out (Ok _) s2 t2 => Build_Out r s2 (t1 ++ t2)
        | Build_Out (Throw e) s2 t2 => Build_Out (Throw e) s2 (t1 ++ t2)
        end
    end.

Definition emit {S E : Type} (e : E) : T S E unit :=
  fun s => Build_Out (Ok tt) s [e].

(** [await] of a promise that resolves or rejects. *)
Definition await {S E A : Type} (r : result A) : T S E A :=
  match r with
  | Ok a => ret a
  | Throw e => throw e
  end.

Definition get {S E : Type} : T S E S :=
  fun s => Build_Out (Ok s) s [].

Definition put {S E : Type} (s' : S) : T S E unit :=
  fun _ => Build_Out (Ok tt) s' [].

End Task.

Declare Scope task_scope.
Delimit Scope task_scope with task.
Notation "x <- m ;; k" := (Task.bind m (fun x => k))
  (at level 61, m at next level, right associativity) : task_scope.
Notation "m ;; k" := (Task.bind m (fun _ => k))
  (at level 61, right associativity) : task_scope.

Inductive toast_kind : Type := Plain | Success | Failure | Loading.

(** What the handlers do to the outside: logger, toasts, Tauri
    [invoke] with its named arguments, calls of a collaborator that is
    handed in (a prop, a store action, an API client), React state
    setters, timers. *)
Inductive ui_event : Type :=
| UiLog (l : level) (msg : string)
| UiToast (k : toast_kind) (msg : string)
| UiInvoke (command : string) (args : list (string * string))
| UiCall (target : string) (args : list string)
| UiSetFlag (field : string) (b : bool)
| UiTimer (ms : nat) (then_log : string).

Definition is_toast (e : ui_event) : bool :=
  match e with UiToast _ _ => true | _ => false end.

Definition is_failure_toast (e : ui_event) : bool :=
  match e with UiToast Failure _ => true | _ => false end.

Definition is_ui_invoke (e : ui_event) : bool :=
  match e with UiInvoke _ _ => true | _ => false end.

Definition is_ui_call (e : ui_event) : bool :=
  match e with UiCall _ _ => true | _ => false end.

Definition is_ui_error_log (e : ui_event) : bool :=
  match e with UiLog Error _ => true | _ => false end.

Definition is_timer (e : ui_event) : bool :=
  match e with UiTimer _ _ => true | _ => false end.

Definition is_set_flag (e : ui_event) : bool :=
  match e with UiSetFlag _ _ => true | _ => false end.

Definition is_success_toast (e : ui_event) : bool :=
  match e with UiToast Success _ => true | _ => false end.

(* ------------------------------------------------------------------ *)
(** *** services/antigravity-path-service: AntigravityPathService *)
(* ------------------------------------------------------------------ *)

Module PathService.

(** [interface AntigravityPathInfo] and [AntigravityExecutableInfo]
    (types/tauri.ts) have the same shape. *)
Record PathInfo : Type := {
  found : bool;
  path : option string;
  isCustomPath : bool
}.

(** The answers of the backend to the five commands. *)
Record Backend : Type := {
  detect_antigravity_installation : Task.result PathInfo;
  detect_antigravity_executable : Task.result PathInfo;
  validate_antigravity_executable : string -> Task.result bool;
  save_antigravity_executable : string -> Task.result string;
  get_current_paths : Task.result (option string)
}.

Section Service.

Context {S : Type}.
Variable K : Backend.

Local Open Scope task_scope.

Definition detectAntigravityPath : Task.T S ui_event PathInfo :=
  Task.try_catch
    (Task.emit (UiInvoke "detect_antigravity_installation" []) ;;
     result <- Task.await (detect_antigravity_installation K) ;;
     Task.ret result)
    (fun error =>
       Task.emit (UiLog Error "检测 Antigravity 路径失败") ;;
       Task.throw (Task.new_Error ("检测失败: " ++ Task.String_of error))).

Definition detectExecutable : Task.T S ui_event PathInfo :=
  Task.try_catch
    (Task.emit (UiInvoke "detect_antigravity_executable" []) ;;
     result <- Task.await (detect_antigravity_executable K) ;;
     Task.ret result)
    (fun error =>
       Task.emit (UiLog Error "检测 Antigravity 可执行文件失败") ;;
       Task.throw (Task.new_Error ("检测失败: " ++ Task.String_of error))).

Definition validateExecutable (path : string) : Task.T S ui_event bool :=
  Task.try_catch
    (Task.emit (UiInvoke "validate_antigravity_executable" [("path", path)]) ;;
     isValid <- Task.await (validate_antigravity_executable K path) ;;
     Task.ret isValid)
    (fun error =>
       Task.emit (UiLog Error "验证可执行文件路径失败") ;;
       Task.ret false).

Definition saveExecutable (path : string) : Task.T S ui_event string :=
  Task.try_catch
    (Task.emit (UiInvoke "save_antigravity_executable" [("path", path)]) ;;
     result <- Task.await (save_antigravity_executable K path) ;;
     Task.ret result)
    (fun error =>
       Task.emit (UiLog Error "保存可执行文件路径失败") ;;
       Task.throw (Task.new_Error ("保存失败: " ++ Task.String_of error))).

(** [CurrentPaths] has the one field [executablePath: string | null]. *)
Definition getCurrentPaths : Task.T S ui_event (option string) :=
  Task.try_catch
    (Task.emit (UiInvoke "get_current_paths" []) ;;
     result <- Task.await (get_current_paths K) ;;
     Task.ret result)
    (fun error =>
       Task.emit (UiLog Error "获取当前路径失败") ;;
       Task.throw (Task.new_Error ("获取失败: " ++ Task.String_of error))).

End Service.

End PathService.

(* ------------------------------------------------------------------ *)
(** *** App.tsx: start-up detection and what [App] renders *)
(* ------------------------------------------------------------------ *)

Module AppStart.

(** The [isDetecting] state of [App]; it starts as [true]. *)
Record State : Type := { isDetecting : bool }.

Definition initial : State := {| isDetecting := true |}.

Definition setIsDetecting (b : bool) : Task.T State ui_event unit :=
  Task.bind (Task.emit (UiSetFlag "isDetecting" b))
    (fun _ => Task.put {| isDetecting := b |}).

Section Init.

Variable K : PathService.Backend.

Local Open Scope task_scope.

Definition initializeApp : Task.T State ui_event unit :=
  Task.try_catch
    (Task.emit (UiLog Info "开始检测 Antigravity 安装") ;;
     pathInfo <- PathService.detectAntigravityPath K ;;
     if PathService.found pathInfo
     then
       Task.emit (UiLog Info "Antigravity 数据库检测成功") ;;
       setIsDetecting false
     else
       Task.emit (UiLog Error "Antigravity 数据库未找到，应用无法使用") ;;
       setIsDetecting false)
    (fun error =>
       Task.emit (UiLog Error "启动检测失败") ;;
       setIsDetecting false).

End Init.

(** The three things [App] can render. *)
Inductive screen : Type :=
| DetectingSpinner      (* 正在检测 Antigravity... *)
| PleaseRun             (* 请先运行 Antigravity *)
| Content.              (* <AppContent/> *)

Definition render (st : State) (isRunning : bool) : screen :=
  if isDetecting st then DetectingSpinner
  else if negb isRunning then PleaseRun
  else Content.

End AppStart.

(* ------------------------------------------------------------------ *)
(** *** services/antigravity-service and hooks/use-antigravity-process *)
(* ------------------------------------------------------------------ *)

Module Process.

(** The [isProcessLoading] state of [useAntigravityProcess]. *)
Record State : Type := { isProcessLoading : bool }.

Definition initial : State := {| isProcessLoading := false |}.

Definition setIsProcessLoading (b : bool) : Task.T State ui_event unit :=
  Task.bind (Task.emit (UiSetFlag "isProcessLoading" b))
    (fun _ => Task.put {| isProcessLoading := b |}).

Section Hook.

(** The answer of the backend to [backup_and_restart_antigravity]. *)
Variable backup_and_restart_antigravity : Task.result string.

Local Open Scope task_scope.

(** [AntigravityService.backupAndRestartAntigravity] *)
Definition Service_backupAndRestartAntigravity {S : Type}
  : Task.T S ui_event unit :=
  Task.try_catch
    (Task.emit (UiLog Info "开始执行备份并重启 Antigravity 流程") ;;
     Task.emit (UiToast Plain "正在关闭 Antigravity 进程...") ;;
     Task.emit (UiLog Info "调用后端 backup_and_restart_antigravity 命令") ;;
     Task.emit (UiInvoke "backup_and_restart_antigravity" []) ;;
     result <- Task.await backup_and_restart_antigravity ;;
     Task.emit (UiLog Info "后端命令执行成功") ;;
     Task.emit (UiToast Success result))
    (fun error =>
       let errorMessage := Task.message_or_String error in
       Task.emit (UiLog Error "备份并重启失败") ;;
       Task.emit (UiLog Error "完整错误对象") ;;
       Task.throw (Task.new_Error ("备份并重启失败: " ++ errorMessage))).

(** [useAntigravityProcess().backupAndRestartAntigravity] *)
Definition backupAndRestartAntigravity : Task.T State ui_event unit :=
  Task.emit (UiLog Info "用户确认登录新账户操作") ;;
  Task.try_finally
    (Task.try_catch
       (setIsProcessLoading true ;;
        Task.emit (UiLog Info "开始备份当前用户并注销") ;;
        Task.emit (UiToast Loading "正在备份当前用户并注销...") ;;
        Task.emit (UiLog Info "调用 AntigravityService 备份重启服务") ;;
        Service_backupAndRestartAntigravity ;;
        Task.emit (UiLog Info "备份并重启操作完成，准备刷新界面") ;;
        Task.emit (UiTimer 1000 "执行界面刷新"))
       (fun error =>
          Task.emit (UiLog Error "登录新账户操作失败") ;;
          let errorMessage := Task.message_or_String error in
          Task.emit (UiToast Failure errorMessage)))
    (setIsProcessLoading false ;;
     Task.emit (UiLog Debug "操作流程结束，重置加载状态")).

End Hook.

End Process.

(* ------------------------------------------------------------------ *)
(** *** components/ui/system-tray-switch: SystemTraySwitch *)
(* ------------------------------------------------------------------ *)

Module TraySwitch.

(** The [isChanging] state of the component. *)
Record State : Type := { isChanging : bool }.

Definition setIsChanging (b : bool) : Task.T State ui_event unit :=
  Task.bind (Task.emit (UiSetFlag "isChanging" b))
    (fun _ => Task.put {| isChanging := b |}).

Section Component.

(** Props: [disabled] and what awaiting [onCheckedChange()] gives. *)
Variable disabled : bool.
Variable onCheckedChange : Task.result unit.

Local Open Scope task_scope.

Definition handleCheckedChange : Task.T State ui_event unit :=
  st <- Task.get ;;
  if isChanging st || disabled then Task.ret tt
  else
    setIsChanging true ;;
    Task.try_finally
      (Task.try_catch
         (Task.emit (UiCall "onCheckedChange" []) ;;
          Task.await onCheckedChange)
         (fun error => Task.emit (UiToast Failure "操作失败，请重试")))
      (setIsChanging false).

(** The [disabled] prop handed to [Switch.Root]. *)
Definition root_disabled (st : State) : bool := disabled || isChanging st.

End Component.

End TraySwitch.

(* ------------------------------------------------------------------ *)
(** *** commands/types/account.types: AntigravityAccountData *)
(* ------------------------------------------------------------------ *)

(** The interfaces of the account data.  A field name that occurs in
    more than one interface, or that is a keyword, carries a prefix
    here ([type] is [auth_type], [Item.name] is [item_name], and so
    on). *)
Module Account.

Record Meta : Type := { expiry_timestamp : float }.

Record Auth : Type := {
  access_token : string;
  id_token : string;
  meta : Meta;
  auth_type : string        (* the field [type] *)
}.

Record Item : Type := {
  item_name : string;
  unknown_f11 : float;
  unknown_f15_base64 : string;
  item_unknown_f2_base64 : string;
  unknown_f5 : float
}.

Record Recommended : Type := {
  names : list string;
  recommended_unknown_f2_base64 : string
}.

Record Models : Type := {
  items : list Item;
  recommended : Recommended;
  unknown_f3_base64 : string
}.

Record Plan : Type := {
  plan_description : string;
  name : string;
  slug : string;
  upgrade_msg : string;
  upgrade_url : string
}.

Record Context : Type := {
  email : string;
  models : Models;
  plan : Plan;
  plan_name : string;
  status : float
}.

Record AntigravityAccountData : Type := {
  auth : Auth;
  context : Context;
  f11_base64 : string;
  f18_base64 : string;
  f7_base64 : JS.value;
  f9_base64 : string;
  flags_f5_base64 : string;
  history : list JS.value;
  user_id_raw_base64 : string
}.

End Account.

(* ------------------------------------------------------------------ *)
(** *** hooks/use-tray-menu: useTrayMenu *)
(* ------------------------------------------------------------------ *)

Module TrayMenu.

Section Hook.

Context {S : Type}.

(** What awaiting [TrayCommands.updateMenu(accounts)] and
    [switchToAccount(email)] gives. *)
Variable updateMenu : list string -> Task.result unit.
Variable switchToAccount : string -> Task.result unit.

Local Open Scope task_scope.

Definition updateTrayMenu (accounts : list string) : Task.T S ui_event unit :=
  Task.try_catch
    (Task.emit (UiLog Info "更新托盘菜单") ;;
     Task.emit (UiCall "TrayCommands.updateMenu" accounts) ;;
     Task.await (updateMenu accounts) ;;
     Task.emit (UiLog Info "托盘菜单更新成功"))
    (fun error => Task.emit (UiLog Error "更新托盘菜单失败")).

(** The effect that runs whenever [accounts] changes. *)
Definition on_accounts_change (accounts : list Account.AntigravityAccountData)
  : Task.T S ui_event unit :=
  if (0 <? List.length accounts)%nat
  then
    let emails :=
      map (fun user => Account.email (Account.context user)) accounts in
    updateTrayMenu emails
  else updateTrayMenu [].

(** The listener of the ["tray-switch-account"] event; [email] is the
    payload. *)
Definition on_tray_switch_account (email : string) : Task.T S ui_event unit :=
  Task.emit (UiLog Info "收到托盘账户切换请求") ;;
  Task.try_catch
    (Task.emit (UiCall "switchToAccount" [email]) ;;
     Task.await (switchToAccount email) ;;
     Task.emit (UiToast Success ("已切换到账户: " ++ email)))
    (fun error =>
       Task.emit (UiLog Error "托盘账户切换失败") ;;
       Task.emit (UiToast Failure ("切换账户失败: " ++ Task.String_of error))).

End Hook.

End TrayMenu.

(* ------------------------------------------------------------------ *)
(** *** AppUserPanel: delete, switch and clear handlers *)
(* ------------------------------------------------------------------ *)

Module UserPanel.

(** The dialog state of the panel.  [backupToDelete] is
    [string | null]. *)
Record State : Type := {
  isClearDialogOpen : bool;
  deleteDialogOpen : bool;
  backupToDelete : option string
}.

Definition initial : State :=
  {| isClearDialogOpen := false; deleteDialogOpen := false;
     backupToDelete := None |}.

Definition setIsClearDialogOpen (b : bool) : Task.T State ui_event unit :=
  Task.bind (Task.emit (UiSetFlag "isClearDialogOpen" b))
    (fun _ => fun st =>
       Task.Build_Out (Task.Ok tt)
         {| isClearDialogOpen := b; deleteDialogOpen := deleteDialogOpen st;
            backupToDelete := backupToDelete st |} []).

Definition setDeleteDialogOpen (b : bool) : Task.T State ui_event unit :=
  Task.bind (Task.emit (UiSetFlag "deleteDialogOpen" b))
    (fun _ => fun st =>
       Task.Build_Out (Task.Ok tt)
         {| isClearDialogOpen := isClearDialogOpen st; deleteDialogOpen := b;
            backupToDelete := backupToDelete st |} []).

Definition setBackupToDelete (v : option string) : Task.T State ui_event unit :=
  fun st =>
    Task.Build_Out (Task.Ok tt)
      {| isClearDialogOpen := isClearDialogOpen st;
         deleteDialogOpen := deleteDialogOpen st;
         backupToDelete := v |} [].

(** The double quote character of the toast texts. *)
Definition quote : string := String (Ascii.ascii_of_nat 34) EmptyString.

Section Panel.

(** The account store handed in by [useAntigravityAccount]: the number
    of users and what awaiting its actions gives. *)
Variable users_length : nat.
Variable account_delete : string -> Task.result unit.
Variable account_switchUser : string -> Task.result unit.
Variable account_clearAllUsers : Task.result unit.

Local Open Scope task_scope.

Definition handleDeleteBackup (backupName : string)
  : Task.T State ui_event unit :=
  setBackupToDelete (Some backupName) ;;
  setDeleteDialogOpen true.

Definition confirmDeleteBackup : Task.T State ui_event unit :=
  st <- Task.get ;;
  match backupToDelete st with
  | None => Task.ret tt
  | Some backupToDelete =>
      if String.eqb backupToDelete "" then Task.ret tt
      else
        Task.try_catch
          (Task.emit (UiCall "antigravityAccount.delete" [backupToDelete]) ;;
           Task.await (account_delete backupToDelete) ;;
           Task.emit
             (UiToast Success
                ("备份 " ++ quote ++ backupToDelete ++ quote ++ " 删除成功")) ;;
           setDeleteDialogOpen false ;;
           setBackupToDelete None)
          (fun error =>
             Task.emit
               (UiToast Failure ("删除备份失败: " ++ Task.String_of error)))
  end.

Definition handleSwitchAccount (backupName : string)
  : Task.T State ui_event unit :=
  Task.try_catch
    (Task.emit (UiCall "antigravityAccount.switchUser" [backupName]) ;;
     Task.await (account_switchUser backupName) ;;
     Task.emit (UiToast Success ("已切换到用户: " ++ backupName)))
    (fun error =>
       Task.emit (UiToast Failure ("切换用户失败: " ++ Task.String_of error))).

Definition handleClearAllBackups : Task.T State ui_event unit :=
  if (users_length =? 0)%nat
  then Task.emit (UiToast Failure "当前没有用户备份可清空")
  else setIsClearDialogOpen true.

Definition confirmClearAllBackups : Task.T State ui_event unit :=
  Task.try_catch
    (Task.emit (UiCall "antigravityAccount.clearAllUsers" []) ;;
     Task.await account_clearAllUsers ;;
     Task.emit (UiToast Success "清空所有备份成功") ;;
     setIsClearDialogOpen false)
    (fun error =>
       Task.emit (UiToast Failure ("清空备份失败: " ++ Task.String_of error))).

End Panel.

End UserPanel.

(* ------------------------------------------------------------------ *)
(** *** modules/use-available-models: useAvailableModels *)
(* ------------------------------------------------------------------ *)

Module AvailableModels.

Section Store.

(** [CloudCodeAPITypes.FetchAvailableModelsResponse] *)
Variable Response : Type.

(** [Record<string, Response>], in property order. *)
Definition Data : Type := list (string * Response).

(** [data[key]] *)
Fixpoint lookup (key : string) (data : Data) : option Response :=
  match data with
  | [] => None
  | (k, v) :: rest => if String.eqb key k then Some v else lookup key rest
  end.

(** [{...data, [key]: v}]: an existing key keeps its place and takes the
    new value, a new key goes last. *)
Fixpoint assign (key : string) (v : Response) (data : Data) : Data :=
  match data with
  | [] => [(key, v)]
  | (k, old) :: rest =>
      if String.eqb key k then (k, v) :: rest
      else (k, old) :: assign key v rest
  end.

(** What awaiting the two calls of [CloudCodeAPI] gives;
    [loadCodeAssist] answers with the [cloudaicompanionProject] of its
    response. *)
Variable loadCodeAssist : string -> Task.result string.
Variable fetchAvailableModels : string -> string -> Task.result Response.

Local Open Scope task_scope.

Definition fetchData (antigravityAccount : Account.AntigravityAccountData)
  : Task.T Data ui_event unit :=
  let access_token := Account.access_token (Account.auth antigravityAccount) in
  Task.emit (UiCall "CloudCodeAPI.loadCodeAssist" [access_token]) ;;
  cloudaicompanionProject <- Task.await (loadCodeAssist access_token) ;;
  Task.emit (UiCall "CloudCodeAPI.fetchAvailableModels"
               [access_token; cloudaicompanionProject]) ;;
  modelsResponse <-
    Task.await (fetchAvailableModels access_token cloudaicompanionProject) ;;
  data <- Task.get ;;
  Task.put
    (assign (Account.email (Account.context antigravityAccount))
       modelsResponse data).

End Store.

End AvailableModels.

(* ------------------------------------------------------------------ *)
(** *** components/Toolbar: update handlers *)
(* ------------------------------------------------------------------ *)

Module Toolbar.

Section Handlers.

Context {S : Type}.

(** What awaiting [startDownload()] and [installAndRelaunch()] of
    [useUpdateChecker] gives. *)
Variable startDownload : Task.result unit.
Variable installAndRelaunch : Task.result unit.

Local Open Scope task_scope.

Definition handleStartDownload : Task.T S ui_event unit :=
  Task.try_catch
    (Task.emit (UiCall "startDownload" []) ;;
     Task.await startDownload ;;
     Task.emit (UiToast Success "更新包下载完成，点击重启按钮安装"))
    (fun error => Task.emit (UiLog Error "下载失败")).

Definition handleInstallAndRelaunch : Task.T S ui_event unit :=
  Task.try_catch
    (Task.emit (UiToast Plain "正在安装更新并重启应用...") ;;
     Task.emit (UiCall "installAndRelaunch" []) ;;
     Task.await installAndRelaunch)
    (fun error => Task.emit (UiLog Error "安装失败")).

End Handlers.

End Toolbar.

(** A sample account. *)
Definition sample_account (email token : string)
  : Account.AntigravityAccountData :=
  {| Account.auth :=
       {| Account.access_token := token; Account.id_token := "";
          Account.meta := {| Account.expiry_timestamp := 0%float |};
          Account.auth_type := "Bearer" |};
     Account.context :=
       {| Account.email := email;
          Account.models :=
            {| Account.items := [];
               Account.recommended :=
                 {| Account.names := [];
                    Account.recommended_unknown_f2_base64 := "" |};
               Account.unknown_f3_base64 := "" |};
          Account.plan :=
            {| Account.plan_description := ""; Account.name := "";
               Account.slug := ""; Account.upgrade_msg := "";
               Account.upgrade_url := "" |};
          Account.plan_name := ""; Account.status := 0%float |};
     Account.f11_base64 := ""; Account.f18_base64 := "";
     Account.f7_base64 := JS.Null; Account.f9_base64 := "";
     Account.flags_f5_base64 := ""; Account.history := [];
     Account.user_id_raw_base64 := "" |}.

(** Path-service backends for the examples. *)
Definition path_backend (detect : Task.result PathService.PathInfo)
  : PathService.Backend :=
  {| PathService.detect_antigravity_installation := detect;
     PathService.detect_antigravity_executable := detect;
     PathService.validate_antigravity_executable :=
       fun _ => Task.Throw (Task.Value "spawn failed");
     PathService.save_antigravity_executable := fun p => Task.Ok p;
     PathService.get_current_paths := Task.Ok None |}.

(* ================================================================== *)
(** ** Proof automation *)
(* ================================================================== *)

#[local] Arguments defaultFileName : simpl never.
#[local] Arguments configData : simpl never.

Ltac unfold_flow :=
  unfold import_session, export_session, PasswordDialog_act,
    PasswordDialog_submit, run_onSubmit, importConfig, exportConfig,
    import_onSubmit, export_onSubmit, handlePasswordDialogCancel,
    showPasswordDialog, closePasswordDialog, import_dialog, export_dialog,
    open, save, readFile, parse,
    stringify, invoke, logger, showStatus, toast_error, set, try_catch,
    try_finally, bind, emit, await, ret, throw, events, view_of in *.

(** The answer of the world a stuck run is waiting for: the innermost
    scrutinee. *)
Ltac innermost x :=
  lazymatch x with
  | context [match ?y with _ => _ end] => innermost y
  | _ => x
  end.

Ltac next_answer :=
  match goal with
  | |- context [match ?x with _ => _ end] =>
      let y := innermost x in destruct y eqn:?
  end; cbn in *.

(** Run a flow symbolically, one answer of the world at a time; [tac]
    closes the branches that are done. *)
Ltac flow_cases tac :=
  unfold_flow; cbn in *;
  repeat (try solve [tac]; next_answer);
  try solve [tac].

(** Name the parts of a state, so that the dialog flag computes. *)
Ltac open_state s :=
  let st := fresh "st" in
  let op := fresh "op" in
  let b := fresh "b" in
  destruct s as [st [op ? ? ? ? ?] b]; cbn in *; subst.

(** What never happens in a coarser sense never happens in a finer
    one. *)
Lemma absent_weaken (p q : event -> bool) (l : list event) :
  (forall e, p e = true -> q e = true) ->
  existsb q l = false -> existsb p l = false.
Proof.
  intros Hpq. induction l as [|e l IH]; cbn; [reflexivity|].
  intros H. apply orb_false_iff in H. destruct H as [Hq Hl].
  apply orb_false_iff. split; [|auto].
  destruct (p e) eqn:E; [|reflexivity].
  rewrite (Hpq e E) in Hq. discriminate.
Qed.

(* ================================================================== *)
(** ** Payload validation *)
(* ================================================================== *)

Lemma validate_config_Ok_iff (c : JS.value) (items : list JS.value) :
  validate_config c = JS.Ok items <->
  JS.truthy_opt (field c "version") = true /\
  field c "backups" = Some (JS.Arr items).
Proof.
  unfold validate_config, field.
  destruct c; cbn; try (split; [discriminate | intros [H _]; discriminate]).
  destruct (JS.assoc "version" fields) as [v|]; cbn;
    [| split; [discriminate | intros [H _]; discriminate]].
  destruct (JS.truthy v); cbn;
    [| split; [discriminate | intros [H _]; discriminate]].
  destruct (JS.assoc "backups" fields) as [[| | | | l |]|]; cbn;
    try (split; [discriminate | intros [_ H]; discriminate]).
  - destruct b; split; try discriminate; intros [_ H]; discriminate.
  - destruct (negb _); split; try discriminate; intros [_ H]; discriminate.
  - destruct (negb _); split; try discriminate; intros [_ H]; discriminate.
  - split; [intros H; inversion H; auto | intros [_ H]; inversion H; auto].
Qed.

Lemma validate_config_total (c : JS.value) :
  (exists items, validate_config c = JS.Ok items) \/
  (exists e, validate_config c = JS.Throw e).
Proof.
  destruct (validate_config c) as [items|e]; [left|right]; eauto.
Qed.

Lemma validate_config_rejects (c : JS.value) :
  field c "version" = None \/ JS.isArray (field c "backups") = false ->
  exists e, validate_config c = JS.Throw e.
Proof.
  intros H.
  destruct (validate_config_total c) as [[items Hok]|Hko]; [|exact Hko].
  apply validate_config_Ok_iff in Hok. destruct Hok as [Hv Hb].
  destruct H as [H|H].
  - rewrite H in Hv. discriminate.
  - rewrite Hb in H. discriminate.
Qed.

(** [backupCount] plays no part in the check. *)
Lemma validate_config_ignores_backupCount
    (fields : list (string * JS.value)) (n : JS.value) :
  validate_config (JS.Obj (("backupCount", n) :: fields))
  = validate_config (JS.Obj fields).
Proof. reflexivity. Qed.

(* ================================================================== *)
(** ** The runs of the store, path by path *)
(* ================================================================== *)

(** Conclude from membership in a recorded run, one entry after the
    other. *)
Ltac by_membership H tac :=
  cbn in H;
  repeat (destruct H as [H | H];
          [try discriminate H; try (inversion H; subst; clear H); tac |]);
  try contradiction.

(** [exportConfig] stops at its first statement: the [showStatus] call
    of the try block throws, the catch block logs and throws again. *)
Lemma exportConfig_run (B : Type) (W : World B) (s : Sys B) :
  let o := exportConfig W s in
  value o = JS.Throw (JS.ReferenceError "showStatus") /\
  after o = s /\
  events o = [Log Info "开始导出配置"; Log Error "检查数据失败"].
Proof. repeat split. Qed.

(** The import callback closes the dialog, raises the flag, throws at
    its first [showStatus], logs in the catch block, throws again, and
    lowers the flag in the finally block. *)
Lemma import_onSubmit_run
    (B : Type) (W : World B) (s : Sys B) (fileContent password : string) :
  let o := import_onSubmit W fileContent password s in
  value o = JS.Throw (JS.ReferenceError "showStatus") /\
  after o = aborted_import s /\
  events o =
    [ClosePasswordDialog; StoreSet (SetImporting true);
     Log Error "解密失败"; StoreSet (SetImporting false)] /\
  map (fun en => importing (fst en)) (emitted o)
    = [isImporting (store s); isImporting (store s); true; true].
Proof. repeat split. Qed.

Lemma export_onSubmit_run
    (B : Type) (W : World B) (s : Sys B)
    (backupsWithContent : list BackupData) (password : string) :
  let o := export_onSubmit W backupsWithContent password s in
  value o = JS.Throw (JS.ReferenceError "showStatus") /\
  after o = aborted_export s /\
  events o =
    [ClosePasswordDialog; StoreSet (SetExporting true);
     Log Error "导出失败"; StoreSet (SetExporting false)] /\
  map (fun en => exporting (fst en)) (emitted o)
    = [isExporting (store s); isExporting (store s); true; true].
Proof. repeat split. Qed.

(** [importConfig] when no file is chosen. *)
Lemma importConfig_open_cancelled
    (B : Type) (W : World B) (s : Sys B) (selected : JS.selection) :
  on_open W = JS.Ok selected ->
  JS.chosen_path selected = None ->
  let o := importConfig W s in
  value o = JS.Throw (JS.ReferenceError "showStatus") /\
  after o = s /\
  events o =
    [Log Info "开始导入配置文件"; DialogOpen;
     Log Warn "未选择文件"; Log Error "文件操作失败"].
Proof.
  intros H1 H2 o. subst o. unfold_flow. cbn. rewrite H1. cbn. rewrite H2.
  cbn. auto.
Qed.

(** [importConfig] when a non-empty file is chosen and read. *)
Lemma importConfig_file_read
    (B : Type) (W : World B) (s : Sys B)
    (selected : JS.selection) (path : string) (bytes : list Byte.byte) :
  on_open W = JS.Ok selected ->
  JS.chosen_path selected = Some path ->
  on_readFile W path = JS.Ok bytes ->
  String.length (TextDecoder_decode W bytes) <> 0 ->
  let o := importConfig W s in
  value o = JS.Ok tt /\
  after o = dialog_shown s (import_dialog (TextDecoder_decode W bytes)) /\
  events o =
    [Log Info "开始导入配置文件"; DialogOpen; Log Info "已选择文件";
     ReadFile path;
     ShowPasswordDialog (import_dialog (TextDecoder_decode W bytes))].
Proof.
  intros H1 H2 H3 H4 o. subst o. apply Nat.eqb_neq in H4.
  unfold_flow. cbn. rewrite H1. cbn. rewrite H2. cbn. rewrite H3. cbn.
  rewrite H4. cbn. auto.
Qed.

(** No run of the store reaches the backend. *)
Lemma sessions_never_invoke
    (B : Type) (W : World B) (g : gesture) (s : Sys B) :
  (let o := import_session W g s in
   existsb is_invoke (events o) = false /\ backend (after o) = backend s) /\
  (let o := export_session W g s in
   existsb is_invoke (events o) = false /\ backend (after o) = backend s).
Proof.
  split; [|repeat split].
  destruct s as [st [op ? ? ? os vp] b]. destruct g;
    flow_cases ltac:(repeat split; reflexivity).
Qed.

(* ================================================================== *)
(** ** Password policy *)
(* ================================================================== *)

Lemma import_validatePassword_spec (password : string) :
  isValid (import_validatePassword password) = true <->
  4 <= JS.length password <= 50.
Proof.
  unfold import_validatePassword.
  destruct (Nat.ltb_spec (JS.length password) 4);
    destruct (Nat.ltb_spec 50 (JS.length password));
    cbn [isValid]; split; intros; try lia; try discriminate; auto.
Qed.

Lemma export_validatePassword_spec (password : string) :
  isValid (export_validatePassword password) = true <->
  4 <= JS.length password <= 50.
Proof.
  unfold export_validatePassword.
  destruct (Nat.ltb_spec (JS.length password) 4);
    destruct (Nat.ltb_spec 50 (JS.length password));
    cbn [isValid]; split; intros; try lia; try discriminate; auto.
Qed.

#[local] Arguments import_validatePassword : simpl never.
#[local] Arguments export_validatePassword : simpl never.

(** Neither first phase ever invokes the backend. *)
Lemma first_phases_no_invoke (B : Type) (W : World B) (s : Sys B) :
  existsb is_invoke (events (importConfig W s)) = false /\
  existsb is_invoke (events (exportConfig W s)) = false.
Proof. split; flow_cases ltac:(reflexivity). Qed.

Lemma codec_is_invoke (e : event) : is_codec e = true -> is_invoke e = true.
Proof. destruct e as [| | | | | | c | | | |]; try discriminate. reflexivity. Qed.

(** C6: the [validatePassword] callbacks of [importConfig] and of
    [exportConfig] accept a password exactly when its length, counted
    as [password.length] counts it, is between 4 and 50 inclusive; so
    lengths 3 and 51 are refused and lengths 4 and 50 accepted.  The
    validator is handed to the password dialog by the first phase, which
    never calls [encrypt_config_data] or [decrypt_config_data]: whenever
    [importConfig] opens the password dialog, the dialog receives exactly
    this validator. *)
Theorem password_policy :
  forall (B : Type) (W : World B) (s : Sys B) (password : string),
    (isValid (import_validatePassword password) = true <->
     4 <= JS.length password <= 50) /\
    (isValid (export_validatePassword password) = true <->
     4 <= JS.length password <= 50) /\
    existsb is_codec (events (importConfig W s)) = false /\
    existsb is_codec (events (exportConfig W s)) = false /\
    (forall config : PasswordDialogConfig,
        In (ShowPasswordDialog config) (events (importConfig W s)) ->
        cfg_validatePassword config = Some import_validatePassword).
Proof.
  intros B W s password.
  split; [apply import_validatePassword_spec|].
  split; [apply export_validatePassword_spec|].
  destruct (first_phases_no_invoke B W s) as [Hi He].
  split; [exact (absent_weaken is_codec is_invoke _ codec_is_invoke Hi)|].
  split; [exact (absent_weaken is_codec is_invoke _ codec_is_invoke He)|].
  intros config.
  flow_cases ltac:(let H := fresh in
                   intros H; by_membership H ltac:(reflexivity)).
Qed.

Lemma password_policy_witness :
  let W := scripted happy in
  let s := fresh disk0 in
  isValid (import_validatePassword "abc") = false /\
  isValid (import_validatePassword "abcd") = true /\
  isValid (export_validatePassword "密码") = false /\
  isValid (export_validatePassword "密码密码") = true /\
  In (ShowPasswordDialog (import_dialog "QUJD")) (events (importConfig W s)) /\
  cfg_validatePassword (import_dialog "QUJD") = Some import_validatePassword.
Proof.
  destruct (password_policy Disk (scripted happy) (fresh disk0) "abc")
    as (H3 & _ & _ & _ & Hdialog).
  destruct (password_policy Disk (scripted happy) (fresh disk0) "abcd")
    as (H4 & _).
  destruct (password_policy Disk (scripted happy) (fresh disk0) "密码")
    as (_ & H2 & _).
  destruct (password_policy Disk (scripted happy) (fresh disk0) "密码密码")
    as (_ & H4' & _).
  assert (Hin : In (ShowPasswordDialog (import_dialog "QUJD"))
                  (events (importConfig (scripted happy) (fresh disk0)))).
  { cbn. do 4 right. left. reflexivity. }
  split.
  { apply Bool.not_true_is_false. intros E. apply H3 in E. vm_compute in E. lia. }
  split; [apply H4; vm_compute; lia|].
  split.
  { apply Bool.not_true_is_false. intros E. apply H2 in E. vm_compute in E. lia. }
  split; [apply H4'; vm_compute; lia|].
  split; [exact Hin | exact (Hdialog _ Hin)].
Defined.

(* ================================================================== *)
(** ** The structural check and the import callback *)
(* ================================================================== *)

(** C1, as the code has it: whenever the decoded payload has no
    [version] field, or its [backups] field is missing or is not an
    array, the structural check of the import callback throws.
    [backupCount] is not looked at.  No run of the callback invokes
    [restore_backup_files] or changes the backend. *)
Theorem import_rejects_malformed_payload :
  forall (c : JS.value),
    field c "version" = None \/ JS.isArray (field c "backups") = false ->
    (exists e, validate_config c = JS.Throw e) /\
    (forall (B : Type) (W : World B) (fileContent password : string)
            (s : Sys B),
        let o := import_onSubmit W fileContent password s in
        existsb is_restore (events o) = false /\
        backend (after o) = backend s).
Proof.
  intros c Hc. split; [exact (validate_config_rejects c Hc)|].
  intros B W fileContent password s o. subst o. split; reflexivity.
Qed.

Lemma import_rejects_malformed_payload_witness :
  let o := import_onSubmit (scripted (with_parsed (JS.Ok payload_no_version)))
             "QUJD" "hunter2" (fresh disk0) in
  field payload_no_version "version" = None /\
  (exists e, validate_config payload_no_version = JS.Throw e) /\
  existsb is_restore (events o) = false /\
  backend (after o) = disk0.
Proof.
  destruct (import_rejects_malformed_payload payload_no_version
              (or_introl eq_refl)) as [Hthrow Hrun].
  split; [reflexivity|]. split; [exact Hthrow|].
  apply (Hrun Disk (scripted (with_parsed (JS.Ok payload_no_version)))
           "QUJD" "hunter2" (fresh disk0)).
Defined.

(** C1 as stated fails: a payload whose [backupCount] is 5 while
    [backups] has one entry is one the specification's [fromText]
    rejects, yet the structural check of the import callback accepts it
    and hands its [backups] on. *)
Lemma import_accepts_count_mismatch :
  count_matches payload_count_mismatch = false /\
  spec_fromText_rejects payload_count_mismatch = true /\
  validate_config payload_count_mismatch = JS.Ok [JS.Str "entry"].
Proof. vm_compute. repeat split. Qed.

(** C3: every run of the import callback, and so every run in which
    decryption, parsing or the structural check would fail, ends in an
    error: the callback logs at error level, rejects, lowers
    [isImporting], never invokes [restore_backup_files] (nor any other
    backend command) and leaves the backend, the snapshot repository
    included, unchanged.  The same holds for a whole import run, whatever
    the user does with the password dialog. *)
Theorem import_failure_restores_nothing :
  forall (B : Type) (W : World B) (fileContent password : string)
         (g : gesture) (s : Sys B),
    (let o := import_onSubmit W fileContent password s in
     (exists e, value o = JS.Throw e) /\
     existsb is_error_log (events o) = true /\
     existsb is_restore (events o) = false /\
     existsb is_invoke (events o) = false /\
     backend (after o) = backend s /\
     isImporting (store (after o)) = false) /\
    (let o := import_session W g s in
     existsb is_restore (events o) = false /\
     backend (after o) = backend s).
Proof.
  intros B W fileContent password g s. split.
  - cbv zeta. repeat split. eexists. reflexivity.
  - destruct (proj1 (sessions_never_invoke B W g s)) as [Hi Hb].
    split; [|exact Hb].
    apply (absent_weaken is_restore is_invoke); [|exact Hi].
    intros [] H; try discriminate H. reflexivity.
Qed.

(** C5, at a run in which [restore_backup_files] would answer with one
    failed entry out of three: [importConfig] reads the file and hands
    the callback to the password dialog; the callback, called with the
    password, rejects with the ReferenceError of [showStatus] right after
    raising [isImporting]; neither [decrypt_config_data] nor
    [restore_backup_files] is invoked and nothing is restored or
    reported. *)
Theorem import_partial_failure_not_reached :
  let W := scripted (with_failures [("b@example.com.json", "permission denied")]) in
  let o1 := importConfig W (fresh disk0) in
  let o2 := import_onSubmit W "QUJD" "hunter2" (after o1) in
  value o1 = JS.Ok tt /\
  onSubmit (passwordDialog (after o1)) = ImportSubmit "QUJD" /\
  value o2 = JS.Throw (JS.ReferenceError "showStatus") /\
  events o2 =
    [ClosePasswordDialog; StoreSet (SetImporting true);
     Log Error "解密失败"; StoreSet (SetImporting false)] /\
  existsb is_decrypt (events o2) = false /\
  existsb is_restore (events o2) = false /\
  restored (backend (after o2)) = [].
Proof. vm_compute. repeat split. Qed.

(* ================================================================== *)
(** ** exportConfig *)
(* ================================================================== *)

(** C4: every call of [exportConfig], and so every call in which the
    collected backup data would be empty, fails at once with an error:
    it rejects after an error-level log, the password dialog and the save
    dialog are never shown, nothing is encrypted or written, and the
    state is unchanged.  The same holds for the whole export run. *)
Theorem export_without_data_fails_fast :
  forall (B : Type) (W : World B) (g : gesture) (s : Sys B),
    (let o := exportConfig W s in
     (exists e, value o = JS.Throw e) /\
     after o = s /\
     existsb is_error_log (events o) = true /\
     existsb is_password_prompt (events o) = false /\
     existsb is_save_dialog (events o) = false /\
     existsb is_encrypt (events o) = false /\
     existsb is_write (events o) = false) /\
    (let o := export_session W g s in
     after o = s /\
     existsb is_password_prompt (events o) = false /\
     existsb is_save_dialog (events o) = false /\
     existsb is_encrypt (events o) = false /\
     existsb is_write (events o) = false).
Proof.
  intros B W g s. split; cbv zeta; repeat split.
  eexists. reflexivity.
Qed.


(* ================================================================== *)
(** ** Cancelling *)
(* ================================================================== *)

(** C7, at an import run in which the user picks no file: the
    cancellation is logged as a warning, then the run throws at
    [showStatus], the catch block logs at error level, and the run
    rejects. *)
Theorem file_dialog_cancel_rejects :
  let o := import_session (scripted open_cancelled) Leave (fresh disk0) in
  on_open (scripted open_cancelled) = JS.Ok JS.NoSelection /\
  value o = JS.Throw (JS.ReferenceError "showStatus") /\
  events o =
    [Log Info "开始导入配置文件"; DialogOpen;
     Log Warn "未选择文件"; Log Error "文件操作失败"] /\
  existsb is_error_log (events o) = true.
Proof. vm_compute. repeat split. Qed.





(* ================================================================== *)
(** ** The in-flight flags *)
(* ================================================================== *)

Lemma first_phases_leave_store
    (B : Type) (W : World B) (s : Sys B) :
  existsb is_store_set (events (importConfig W s)) = false /\
  existsb is_store_set (events (exportConfig W s)) = false /\
  store (after (importConfig W s)) = store s /\
  store (after (exportConfig W s)) = store s.
Proof.
  repeat split; flow_cases ltac:(reflexivity).
Qed.

Lemma import_session_flag
    (B : Type) (W : World B) (s : Sys B) (g : gesture) :
  isOpen (passwordDialog s) = false ->
  isImporting (store s) = false ->
  let o := import_session W g s in
  guarded preparing importing_down (emitted o) = true /\
  guarded dialog_is_open importing_down (emitted o) = true /\
  isImporting (store (after o)) = false.
Proof.
  intros Hc Hf o. subst o.
  destruct s as [[imp ex chk] [op ? ? ? ? ?] b]; cbn in *; subst.
  destruct g; flow_cases ltac:(repeat split; reflexivity).
Qed.

Lemma export_session_flag
    (B : Type) (W : World B) (s : Sys B) (g : gesture) :
  isOpen (passwordDialog s) = false ->
  isExporting (store s) = false ->
  let o := export_session W g s in
  guarded preparing exporting_down (emitted o) = true /\
  guarded dialog_is_open exporting_down (emitted o) = true /\
  isExporting (store (after o)) = false.
Proof.
  intros Hc Hf o. subst o.
  destruct s as [[imp ex chk] [op ? ? ? ? ?] b]; cbn in *; subst.
  repeat split.
Qed.

(** C10: the store is written only by the two [onSubmit] callbacks
    ([importConfig] and [exportConfig] themselves never write it).  Each
    callback first closes the dialog, then raises its flag (the flag is
    observed raised by everything that follows), and its last action,
    after the catch block, is to lower the flag again.  Hence, in a run
    that starts with the dialog closed and the flag down, the flag is
    down whenever the file is selected or read, the data collected or
    the password dialog put up, it is down at every moment at which the
    dialog is open, and it is down at the end. *)
Theorem flag_lifetime :
  forall (B : Type) (W : World B) (s : Sys B) (g : gesture)
         (fileContent password : string)
         (backupsWithContent : list BackupData),
    (existsb is_store_set (events (importConfig W s)) = false /\
     existsb is_store_set (events (exportConfig W s)) = false) /\
    (let o := import_onSubmit W fileContent password s in
     events o =
       [ClosePasswordDialog; StoreSet (SetImporting true);
        Log Error "解密失败"; StoreSet (SetImporting false)] /\
     map (fun en => importing (fst en)) (emitted o)
       = [isImporting (store s); isImporting (store s); true; true] /\
     isImporting (store (after o)) = false) /\
    (let o := export_onSubmit W backupsWithContent password s in
     events o =
       [ClosePasswordDialog; StoreSet (SetExporting true);
        Log Error "导出失败"; StoreSet (SetExporting false)] /\
     map (fun en => exporting (fst en)) (emitted o)
       = [isExporting (store s); isExporting (store s); true; true] /\
     isExporting (store (after o)) = false) /\
    (isOpen (passwordDialog s) = false ->
     isImporting (store s) = false ->
     let o := import_session W g s in
     guarded preparing importing_down (emitted o) = true /\
     guarded dialog_is_open importing_down (emitted o) = true /\
     isImporting (store (after o)) = false) /\
    (isOpen (passwordDialog s) = false ->
     isExporting (store s) = false ->
     let o := export_session W g s in
     guarded preparing exporting_down (emitted o) = true /\
     guarded dialog_is_open exporting_down (emitted o) = true /\
     isExporting (store (after o)) = false).
Proof.
  intros B W s g fileContent password backupsWithContent.
  split.
  { destruct (first_phases_leave_store B W s) as (H1 & H2 & _).
    split; assumption. }
  split; [cbv zeta; repeat split|].
  split; [cbv zeta; repeat split|].
  split.
  - intros Hc Hf. apply import_session_flag; assumption.
  - intros Hc Hf. apply export_session_flag; assumption.
Qed.

Lemma flag_lifetime_witness :
  let W := scripted happy in
  let s := fresh disk0 in
  let o1 := import_session W (Submit "hunter2" "") s in
  let o2 := export_session W (Submit "hunter2" "hunter2") s in
  isOpen (passwordDialog s) = false /\
  isImporting (store s) = false /\
  isExporting (store s) = false /\
  In (StoreSet (SetImporting true)) (events o1) /\
  (guarded preparing importing_down (emitted o1) = true /\
   guarded dialog_is_open importing_down (emitted o1) = true /\
   isImporting (store (after o1)) = false) /\
  (guarded preparing exporting_down (emitted o2) = true /\
   guarded dialog_is_open exporting_down (emitted o2) = true /\
   isExporting (store (after o2)) = false).
Proof.
  split; [reflexivity|]. split; [reflexivity|]. split; [reflexivity|].
  split; [cbn; do 6 right; left; reflexivity|].
  split.
  - destruct (flag_lifetime Disk (scripted happy) (fresh disk0)
                (Submit "hunter2" "") "QUJD" "hunter2" [one_backup])
      as (_ & _ & _ & Himport & _).
    apply Himport; reflexivity.
  - destruct (flag_lifetime Disk (scripted happy) (fresh disk0)
                (Submit "hunter2" "hunter2") "QUJD" "hunter2" [one_backup])
      as (_ & _ & _ & _ & Hexport).
    apply Hexport; reflexivity.
Defined.

(* ================================================================== *)
(** ** Starting a second run *)
(* ================================================================== *)

Lemma flows_ignore_flags
    (B : Type) (W : World B) (s : Sys B) (flags : ConfigState) :
  events (exportConfig W (with_store s flags)) = events (exportConfig W s) /\
  events (importConfig W (with_store s flags)) = events (importConfig W s) /\
  value (exportConfig W (with_store s flags)) = value (exportConfig W s) /\
  value (importConfig W (with_store s flags)) = value (importConfig W s).
Proof.
  unfold with_store. repeat split; flow_cases ltac:(reflexivity).
Qed.

Lemma importConfig_opens_dialog (B : Type) (W : World B) (s : Sys B) :
  existsb is_open_dialog (events (importConfig W s)) = true.
Proof. flow_cases ltac:(reflexivity). Qed.

(** C2, as the code has it: [exportConfig] and [importConfig] do not
    look at [isExporting] or [isImporting].  Whatever the flags are, the
    calls they make and their outcome are the same, and [importConfig]
    opens the file dialog.  A raised flag only reaches the toolbar,
    where it makes [isAnyLoading] true. *)
Theorem no_guard_in_store :
  forall (B : Type) (W : World B) (s : Sys B) (flags : ConfigState)
         (isProcessLoading : bool),
    events (exportConfig W (with_store s flags)) = events (exportConfig W s) /\
    events (importConfig W (with_store s flags)) = events (importConfig W s) /\
    value (exportConfig W (with_store s flags)) = value (exportConfig W s) /\
    value (importConfig W (with_store s flags)) = value (importConfig W s) /\
    existsb is_open_dialog (events (importConfig W (with_store s flags))) = true /\
    (isExporting flags = true \/ isImporting flags = true ->
     isAnyLoading (loadingState isProcessLoading flags) = true).
Proof.
  intros B W s flags isProcessLoading.
  destruct (flows_ignore_flags B W s flags) as (He & Hi & Hve & Hvi).
  split; [exact He|]. split; [exact Hi|]. split; [exact Hve|].
  split; [exact Hvi|].
  split; [apply importConfig_opens_dialog|].
  intros [H|H]; unfold isAnyLoading, loadingState; cbn; rewrite H;
    destruct isProcessLoading; cbn; try reflexivity;
    destruct (isImporting flags); reflexivity.
Qed.

Lemma no_guard_in_store_witness :
  let W := scripted happy in
  let flags := store export_in_flight in
  isExporting flags = true /\
  events (importConfig W (with_store (fresh disk0) flags))
    = events (importConfig W (fresh disk0)) /\
  value (importConfig W (with_store (fresh disk0) flags))
    = value (importConfig W (fresh disk0)) /\
  existsb is_open_dialog
    (events (importConfig W (with_store (fresh disk0) flags))) = true /\
  isAnyLoading (loadingState false flags) = true.
Proof.
  split; [reflexivity|].
  destruct (no_guard_in_store Disk (scripted happy) (fresh disk0)
              (store export_in_flight) false)
    as (_ & H2 & _ & H4 & H5 & H6).
  split; [exact H2|]. split; [exact H4|]. split; [exact H5|].
  apply H6. left. reflexivity.
Defined.

(** C2 as stated fails: with [isExporting] raised, a call of
    [importConfig] is not rejected: it opens the file dialog, reads the
    chosen file, puts up the password dialog and completes normally. *)
Lemma second_run_not_rejected :
  let o := importConfig (scripted happy) export_in_flight in
  isExporting (store export_in_flight) = true /\
  value o = JS.Ok tt /\
  In ({| importing := false; exporting := true; dialogOpen := false |},
      DialogOpen) (emitted o) /\
  existsb is_read (events o) = true /\
  existsb is_password_prompt (events o) = true /\
  isOpen (passwordDialog (after o)) = true.
Proof.
  vm_compute. repeat split. right. left. reflexivity.
Qed.

(* ================================================================== *)
(** ** Further properties of the configuration store *)
(* ================================================================== *)

(** X1: when [importConfig] completes.  [importConfig] completes
    normally exactly when a file was chosen, could be read and is not
    empty; in every other case (no file chosen, empty file, a rejected
    dialog or read) it rejects with the ReferenceError of [showStatus]
    after an error-level log, without opening the password dialog and
    with the state unchanged. *)
Theorem importConfig_completes_iff :
  forall (B : Type) (W : World B) (s : Sys B),
    let o := importConfig W s in
    (value o = JS.Ok tt <->
     exists (selected : JS.selection) (path : string) (bytes : list Byte.byte),
       on_open W = JS.Ok selected /\
       JS.chosen_path selected = Some path /\
       on_readFile W path = JS.Ok bytes /\
       String.length (TextDecoder_decode W bytes) <> 0) /\
    (value o <> JS.Ok tt ->
     value o = JS.Throw (JS.ReferenceError "showStatus") /\
     after o = s /\
     existsb is_error_log (events o) = true /\
     existsb is_password_prompt (events o) = false).
Proof.
  intros B W s o. subst o.
  destruct (on_open W) as [selected | e] eqn:Ho.
  2:{ split.
      - split.
        + unfold_flow. cbn. rewrite Ho. cbn. discriminate.
        + intros (sel & p & bs & H & _). discriminate H.
      - intros _. unfold_flow. cbn. rewrite Ho. cbn. repeat split. }
  destruct (JS.chosen_path selected) as [path|] eqn:Hp.
  2:{ destruct (importConfig_open_cancelled B W s selected Ho Hp)
        as (Hv & Ha & He).
      split.
      - split.
        + rewrite Hv. discriminate.
        + intros (sel & p & bs & H1 & H2 & _).
          inversion H1. subst sel. rewrite Hp in H2.
          discriminate H2.
      - intros _. rewrite Hv, Ha, He. repeat split. }
  destruct (on_readFile W path) as [bytes | e] eqn:Hr.
  2:{ split.
      - split.
        + unfold_flow. cbn. rewrite Ho. cbn. rewrite Hp. cbn. rewrite Hr.
          cbn. discriminate.
        + intros (sel & p & bs & H1 & H2 & H3 & _).
          inversion H1. subst sel. rewrite Hp in H2.
          inversion H2. subst p. rewrite Hr in H3. discriminate H3.
      - intros _. unfold_flow. cbn. rewrite Ho. cbn. rewrite Hp. cbn.
        rewrite Hr. cbn. repeat split. }
  destruct (Nat.eq_dec (String.length (TextDecoder_decode W bytes)) 0)
    as [Hz | Hnz].
  - split.
    + split.
      * unfold_flow. cbn. rewrite Ho. cbn. rewrite Hp. cbn. rewrite Hr. cbn.
        rewrite Hz. cbn. discriminate.
      * intros (sel & p & bs & H1 & H2 & H3 & H4).
        inversion H1. subst sel. rewrite Hp in H2.
        inversion H2. subst p. rewrite Hr in H3. inversion H3. subst bs.
        contradiction.
    + intros _. unfold_flow. cbn. rewrite Ho. cbn. rewrite Hp. cbn.
      rewrite Hr. cbn. rewrite Hz. cbn. repeat split.
  - destruct (importConfig_file_read B W s selected path bytes Ho Hp Hr Hnz)
      as (Hv & _).
    split.
    + split; [|intros _; exact Hv].
      intros _. exists selected, path, bytes. auto.
    + intros Hno. contradiction.
Qed.

Lemma importConfig_completes_iff_witness :
  value (importConfig (scripted happy) (fresh disk0)) = JS.Ok tt /\
  value (importConfig (scripted open_cancelled) (fresh disk0))
    = JS.Throw (JS.ReferenceError "showStatus").
Proof.
  split.
  - apply (proj1 (importConfig_completes_iff Disk (scripted happy)
                    (fresh disk0))).
    exists (JS.Path "/tmp/config.enc"), "/tmp/config.enc",
      (list_byte_of_string "QUJD").
    repeat split. discriminate.
  - apply (proj2 (importConfig_completes_iff Disk (scripted open_cancelled)
                    (fresh disk0))).
    discriminate.
Defined.

(** X2: an empty file.  When the chosen file decodes to the empty
    string, [importConfig] logs the warning, throws at [showStatus],
    logs the file-operation error from its catch block and rejects; the
    password dialog is not opened, nothing is invoked and the state is
    unchanged. *)
Theorem import_empty_file :
  forall (B : Type) (W : World B) (s : Sys B)
         (selected : JS.selection) (path : string) (bytes : list Byte.byte),
    on_open W = JS.Ok selected ->
    JS.chosen_path selected = Some path ->
    on_readFile W path = JS.Ok bytes ->
    String.length (TextDecoder_decode W bytes) = 0 ->
    let o := importConfig W s in
    value o = JS.Throw (JS.ReferenceError "showStatus") /\
    after o = s /\
    events o =
      [Log Info "开始导入配置文件"; DialogOpen; Log Info "已选择文件";
       ReadFile path; Log Warn "文件内容为空"; Log Error "文件操作失败"].
Proof.
  intros B W s selected path bytes H1 H2 H3 H4 o. subst o.
  unfold_flow. cbn. rewrite H1. cbn. rewrite H2. cbn. rewrite H3. cbn.
  rewrite H4. cbn. auto.
Qed.

Lemma import_empty_file_witness :
  let W := scripted
             {| pick := JS.Path "/tmp/empty.enc"; file_bytes := [];
                decrypted := decrypted happy; parsed := parsed happy;
                restore_failures := []; save_pick := JS.NoSelection |} in
  let o := importConfig W (fresh disk0) in
  value o = JS.Throw (JS.ReferenceError "showStatus") /\
  after o = fresh disk0 /\
  events o =
    [Log Info "开始导入配置文件"; DialogOpen; Log Info "已选择文件";
     ReadFile "/tmp/empty.enc"; Log Warn "文件内容为空";
     Log Error "文件操作失败"].
Proof.
  apply (import_empty_file Disk _ (fresh disk0) (JS.Path "/tmp/empty.enc")
           "/tmp/empty.enc" []); reflexivity.
Defined.

(** X3: a failing file operation.  When the open dialog rejects, or
    reading the chosen file rejects, [importConfig] logs at error level
    and rejects; what it rejects with is the ReferenceError of
    [showStatus], not the error of the dialog or of the read.  The
    password dialog is not opened and the state is unchanged. *)
Theorem import_file_operation_fails :
  forall (B : Type) (W : World B) (s : Sys B) (e : JS.error),
    on_open W = JS.Throw e \/
    (exists (selected : JS.selection) (path : string),
        on_open W = JS.Ok selected /\
        JS.chosen_path selected = Some path /\
        on_readFile W path = JS.Throw e) ->
    let o := importConfig W s in
    value o = JS.Throw (JS.ReferenceError "showStatus") /\
    after o = s /\
    filter is_error_log (events o) = [Log Error "文件操作失败"] /\
    existsb is_password_prompt (events o) = false /\
    existsb is_invoke (events o) = false.
Proof.
  intros B W s e H o. subst o.
  destruct H as [H | (selected & path & H1 & H2 & H3)].
  - unfold_flow. cbn. rewrite H. cbn. repeat split.
  - unfold_flow. cbn. rewrite H1. cbn. rewrite H2. cbn. rewrite H3. cbn.
    repeat split.
Qed.

Lemma import_file_operation_fails_witness :
  let W :=
    {| on_open := JS.Throw (JS.Thrown "dialog plugin not available");
       on_save := on_save (scripted happy);
       on_readFile := on_readFile (scripted happy);
       TextDecoder_decode := TextDecoder_decode (scripted happy);
       JSON_parse := JSON_parse (scripted happy);
       JSON_stringify := JSON_stringify (scripted happy);
       Date_toISOString := Date_toISOString (scripted happy);
       do_decrypt := do_decrypt (scripted happy);
       do_encrypt := do_encrypt (scripted happy);
       do_collect := do_collect (scripted happy);
       do_restore := do_restore (scripted happy);
       do_write := do_write (scripted happy) |} in
  let o := importConfig W (fresh disk0) in
  value o = JS.Throw (JS.ReferenceError "showStatus") /\
  after o = fresh disk0 /\
  filter is_error_log (events o) = [Log Error "文件操作失败"] /\
  existsb is_password_prompt (events o) = false /\
  existsb is_invoke (events o) = false.
Proof.
  apply (import_file_operation_fails Disk _ (fresh disk0)
           (JS.Thrown "dialog plugin not available")).
  left. reflexivity.
Defined.

(** X6: what the password dialog is given.  When a non-empty file was
    chosen and read, [importConfig] completes with the password dialog
    open, without confirmation field, with the import validator, and
    with a callback that has captured exactly the decoded content of
    that file; the store and the backend are untouched. *)
Theorem import_dialog_captures_file :
  forall (B : Type) (W : World B) (s : Sys B)
         (selected : JS.selection) (path : string) (bytes : list Byte.byte),
    on_open W = JS.Ok selected ->
    JS.chosen_path selected = Some path ->
    on_readFile W path = JS.Ok bytes ->
    String.length (TextDecoder_decode W bytes) <> 0 ->
    let o := importConfig W s in
    let d := passwordDialog (after o) in
    value o = JS.Ok tt /\
    isOpen d = true /\
    requireConfirmation d = false /\
    onSubmit d = ImportSubmit (TextDecoder_decode W bytes) /\
    validatePassword d = Some import_validatePassword /\
    store (after o) = store s /\
    backend (after o) = backend s /\
    filter is_read (events o) = [ReadFile path].
Proof.
  intros B W s selected path bytes H1 H2 H3 H4 o d. subst d o.
  destruct (importConfig_file_read B W s selected path bytes H1 H2 H3 H4)
    as (Hv & Ha & He).
  rewrite Hv, Ha, He. repeat split.
Qed.

Lemma import_dialog_captures_file_witness :
  let o := importConfig (scripted happy) (fresh disk0) in
  let d := passwordDialog (after o) in
  value o = JS.Ok tt /\
  isOpen d = true /\
  requireConfirmation d = false /\
  onSubmit d = ImportSubmit "QUJD" /\
  validatePassword d = Some import_validatePassword /\
  store (after o) = initial_ConfigState /\
  backend (after o) = disk0 /\
  filter is_read (events o) = [ReadFile "/tmp/config.enc"].
Proof.
  apply (import_dialog_captures_file Disk (scripted happy) (fresh disk0)
           (JS.Path "/tmp/config.enc") "/tmp/config.enc"
           (list_byte_of_string "QUJD")); try reflexivity.
  discriminate.
Defined.

(** X7: the order of an import run.  The steps of every import run are
    an initial part of: select the file, read it, ask for the password.
    No run gets further: nothing is decrypted, parsed or restored. *)
Theorem import_steps_in_order :
  forall (B : Type) (W : World B) (g : gesture) (s : Sys B),
    isOpen (passwordDialog s) = false ->
    exists rest,
      reachable_import_order
      = (import_steps (events (import_session W g s)) ++ rest)%list.
Proof.
  intros B W g s Hc. open_state s. destruct g;
    flow_cases ltac:(eexists; reflexivity).
Qed.

Lemma import_steps_in_order_witness :
  isOpen (passwordDialog (fresh disk0)) = false /\
  import_steps
    (events (import_session (scripted happy) (Submit "hunter2" "")
               (fresh disk0)))
  = reachable_import_order /\
  exists rest,
    reachable_import_order =
      (import_steps
         (events (import_session (scripted happy) (Submit "hunter2" "")
                    (fresh disk0))) ++ rest)%list.
Proof.
  split; [reflexivity|]. split; [reflexivity|].
  apply (import_steps_in_order Disk (scripted happy) (Submit "hunter2" "")
           (fresh disk0)).
  reflexivity.
Defined.

(* ================================================================== *)
(** ** What a run leaves alone *)
(* ================================================================== *)

(** X13: each flow touches only its own flag.  An import run never sets
    [isExporting] and leaves it and [isCheckingData] as they were; an
    export run never sets [isImporting] and leaves it and
    [isCheckingData] as they were. *)
Theorem flows_keep_other_flags :
  forall (B : Type) (W : World B) (g : gesture) (s : Sys B),
    isOpen (passwordDialog s) = false ->
    (let o := import_session W g s in
     existsb is_set_exporting (events o) = false /\
     isExporting (store (after o)) = isExporting (store s) /\
     isCheckingData (store (after o)) = isCheckingData (store s)) /\
    (let o := export_session W g s in
     existsb is_set_importing (events o) = false /\
     isImporting (store (after o)) = isImporting (store s) /\
     isCheckingData (store (after o)) = isCheckingData (store s)).
Proof.
  intros B W g s Hc. open_state s.
  split; destruct g; flow_cases ltac:(repeat split; reflexivity).
Qed.

Lemma flows_keep_other_flags_witness :
  let s := export_in_flight in
  let o := import_session (scripted happy) (Submit "hunter2" "") s in
  isOpen (passwordDialog s) = false /\
  In (StoreSet (SetImporting true)) (events o) /\
  existsb is_set_exporting (events o) = false /\
  isExporting (store (after o)) = true /\
  isCheckingData (store (after o)) = false.
Proof.
  split; [reflexivity|].
  split; [cbn; do 6 right; left; reflexivity|].
  apply (proj1 (flows_keep_other_flags Disk (scripted happy)
                  (Submit "hunter2" "") export_in_flight eq_refl)).
Defined.


(* ================================================================== *)
(** ** The proposed file name *)
(* ================================================================== *)

Lemma replace_colons_no_colon (s : string) :
  has_colon (replace_colons s) = false.
Proof.
  induction s as [|c s IH]; cbn; [reflexivity|].
  rewrite IH. destruct (Ascii.eqb c ":") eqn:E; cbn; [reflexivity|].
  rewrite E. reflexivity.
Qed.

Lemma replace_colons_length (s : string) :
  String.length (replace_colons s) = String.length s.
Proof.
  induction s as [|c s IH]; cbn; [reflexivity|]. rewrite IH. reflexivity.
Qed.

Lemma replace_colons_fixed (s : string) :
  has_colon s = false -> replace_colons s = s.
Proof.
  induction s as [|c s IH]; cbn; [reflexivity|].
  intros H. apply orb_false_iff in H. destruct H as [Hc Hs].
  rewrite Hc, (IH Hs). reflexivity.
Qed.

Lemma substring_0_length (n : nat) (s : string) :
  String.length (substring 0 n s) = Nat.min n (String.length s).
Proof.
  revert s. induction n as [|n IH]; intros s.
  - destruct s; reflexivity.
  - destruct s as [|c s]; cbn; [reflexivity|]. rewrite IH. reflexivity.
Qed.

Lemma has_colon_app (s t : string) :
  has_colon (s ++ t) = has_colon s || has_colon t.
Proof.
  induction s as [|c s IH]; cbn; [reflexivity|].
  rewrite IH. apply orb_assoc.
Qed.

Lemma length_app_string (s t : string) :
  String.length (s ++ t) = String.length s + String.length t.
Proof.
  induction s as [|c s IH]; cbn; [reflexivity|]. rewrite IH. reflexivity.
Qed.

(** X12: the file name proposed in the save dialog.  Whatever the clock
    returns, the proposed name contains no colon, starts with
    [antigravity_encrypted_config_] and ends with [.enc], with at most
    19 characters of time stamp in between; so it is at most 52
    characters long. *)
Theorem defaultFileName_shape :
  forall (B : Type) (W : World B),
    has_colon (defaultFileName W) = false /\
    (exists stamp : string,
        defaultFileName W
          = "antigravity_encrypted_config_" ++ stamp ++ ".enc" /\
        String.length stamp = Nat.min 19 (String.length (Date_toISOString W))) /\
    String.length (defaultFileName W) <= 52.
Proof.
  intros B W. unfold defaultFileName.
  set (stamp := replace_colons (substring 0 19 (Date_toISOString W))).
  assert (Hlen : String.length stamp
                 = Nat.min 19 (String.length (Date_toISOString W))).
  { unfold stamp. rewrite replace_colons_length. apply substring_0_length. }
  split; [|split].
  - rewrite !has_colon_app. unfold stamp. rewrite replace_colons_no_colon.
    reflexivity.
  - exists stamp. split; [reflexivity | exact Hlen].
  - pose proof (Nat.le_min_l 19 (String.length (Date_toISOString W))) as Hmin.
    rewrite !length_app_string, Hlen.
    change (String.length "antigravity_encrypted_config_") with 29.
    change (String.length ".enc") with 4.
    lia.
Qed.

(* ================================================================== *)
(** ** Handlers outside the store *)
(* ================================================================== *)

Ltac unfold_task :=
  unfold AppStart.initializeApp, PathService.detectAntigravityPath,
    PathService.detectExecutable, PathService.validateExecutable,
    PathService.saveExecutable, PathService.getCurrentPaths,
    AppStart.setIsDetecting, AppStart.render,
    Process.backupAndRestartAntigravity,
    Process.Service_backupAndRestartAntigravity,
    Process.setIsProcessLoading, TraySwitch.handleCheckedChange,
    TraySwitch.setIsChanging, TrayMenu.on_accounts_change,
    TrayMenu.updateTrayMenu, TrayMenu.on_tray_switch_account,
    UserPanel.handleDeleteBackup, UserPanel.confirmDeleteBackup,
    UserPanel.handleSwitchAccount, UserPanel.handleClearAllBackups,
    UserPanel.confirmClearAllBackups, UserPanel.setIsClearDialogOpen,
    UserPanel.setDeleteDialogOpen, UserPanel.setBackupToDelete,
    AvailableModels.fetchData, Toolbar.handleStartDownload,
    Toolbar.handleInstallAndRelaunch, Task.bind, Task.try_catch,
    Task.try_finally, Task.emit, Task.await, Task.ret, Task.throw,
    Task.get, Task.put, Task.new_Error in *.

Ltac task_cases tac :=
  unfold_task; cbn in *;
  repeat (try solve [tac]; next_answer);
  try solve [tac].

(** X15: [validateExecutable] never throws.  It answers what the
    backend answers, and [false] when the backend call rejects; only in
    that case it logs an error.  The state is untouched. *)
Theorem validateExecutable_never_throws :
  forall (S : Type) (K : PathService.Backend) (path : string) (s : S),
    let o := PathService.validateExecutable K path s in
    Task.value o =
      Task.Ok match PathService.validate_antigravity_executable K path with
              | Task.Ok isValid => isValid
              | Task.Throw _ => false
              end /\
    Task.after o = s /\
    existsb is_ui_error_log (Task.emitted o) =
      match PathService.validate_antigravity_executable K path with
      | Task.Ok _ => false
      | Task.Throw _ => true
      end.
Proof.
  intros S K path s o. subst o.
  task_cases ltac:(repeat split; reflexivity).
Qed.

(** X16: the other four methods of [AntigravityPathService],
    [detectAntigravityPath], [detectExecutable], [saveExecutable] and
    [getCurrentPaths].  Each invokes its backend command once and leaves
    the state alone.  When the command resolves, the method hands the
    result through unchanged and logs no error; when it rejects, the
    method logs an error and throws a new [Error] whose message is the
    method's prefix followed by [String(error)]. *)
Theorem path_service_wraps_failures :
  forall (S : Type) (K : PathService.Backend) (path : string) (s : S),
    (let o := PathService.detectAntigravityPath K s in
     Task.after o = s /\
     List.length (filter is_ui_invoke (Task.emitted o)) = 1 /\
     match PathService.detect_antigravity_installation K with
     | Task.Ok info =>
         Task.value o = Task.Ok info /\
         existsb is_ui_error_log (Task.emitted o) = false
     | Task.Throw e =>
         Task.value o
           = Task.Throw
               (Task.ErrorObject "Error" ("检测失败: " ++ Task.String_of e)) /\
         existsb is_ui_error_log (Task.emitted o) = true
     end) /\
    (let o := PathService.detectExecutable K s in
     Task.after o = s /\
     List.length (filter is_ui_invoke (Task.emitted o)) = 1 /\
     match PathService.detect_antigravity_executable K with
     | Task.Ok info =>
         Task.value o = Task.Ok info /\
         existsb is_ui_error_log (Task.emitted o) = false
     | Task.Throw e =>
         Task.value o
           = Task.Throw
               (Task.ErrorObject "Error" ("检测失败: " ++ Task.String_of e)) /\
         existsb is_ui_error_log (Task.emitted o) = true
     end) /\
    (let o := PathService.saveExecutable K path s in
     Task.after o = s /\
     List.length (filter is_ui_invoke (Task.emitted o)) = 1 /\
     match PathService.save_antigravity_executable K path with
     | Task.Ok result =>
         Task.value o = Task.Ok result /\
         existsb is_ui_error_log (Task.emitted o) = false
     | Task.Throw e =>
         Task.value o
           = Task.Throw
               (Task.ErrorObject "Error" ("保存失败: " ++ Task.String_of e)) /\
         existsb is_ui_error_log (Task.emitted o) = true
     end) /\
    (let o := PathService.getCurrentPaths K s in
     Task.after o = s /\
     List.length (filter is_ui_invoke (Task.emitted o)) = 1 /\
     match PathService.get_current_paths K with
     | Task.Ok paths =>
         Task.value o = Task.Ok paths /\
         existsb is_ui_error_log (Task.emitted o) = false
     | Task.Throw e =>
         Task.value o
           = Task.Throw
               (Task.ErrorObject "Error" ("获取失败: " ++ Task.String_of e)) /\
         existsb is_ui_error_log (Task.emitted o) = true
     end).
Proof.
  intros S K path s.
  split; [|split; [|split]]; cbv zeta; unfold_task; cbn.
  - destruct (PathService.detect_antigravity_installation K);
      repeat split.
  - destruct (PathService.detect_antigravity_executable K);
      repeat split.
  - destruct (PathService.save_antigravity_executable K path);
      repeat split.
  - destruct (PathService.get_current_paths K); repeat split.
Qed.

(** X17: start-up detection always ends.  Whether the backend finds
    the installation, does not find it, or the call rejects,
    [initializeApp] completes without throwing and with [isDetecting]
    false; afterwards [App] never renders the spinner, and it renders
    the content as soon as Antigravity is running, also when the
    installation was not found. *)
Theorem initializeApp_always_ends :
  forall (K : PathService.Backend) (st : AppStart.State) (isRunning : bool),
    let o := AppStart.initializeApp K st in
    Task.value o = Task.Ok tt /\
    AppStart.isDetecting (Task.after o) = false /\
    AppStart.render (Task.after o) isRunning
      = (if isRunning then AppStart.Content else AppStart.PleaseRun) /\
    List.length (filter is_ui_invoke (Task.emitted o)) = 1.
Proof.
  intros K st isRunning o. subst o. destruct isRunning;
    task_cases ltac:(repeat split; reflexivity).
Qed.

(** X18: the backend failure reaches the user with one prefix.  When
    [backup_and_restart_antigravity] rejects,
    [AntigravityService.backupAndRestartAntigravity] logs twice and
    throws a new [Error] whose message is the fixed prefix followed by
    the text of the failure, without any success toast; when it resolves,
    the result is shown as a success toast and nothing is thrown. *)
Theorem service_backupAndRestart_contract :
  forall (S : Type) (answer : Task.result string) (s : S),
    let o := Process.Service_backupAndRestartAntigravity answer s in
    Task.after o = s /\
    match answer with
    | Task.Ok result =>
        Task.value o = Task.Ok tt /\
        filter is_toast (Task.emitted o)
          = [UiToast Plain "正在关闭 Antigravity 进程..."; UiToast Success result]
    | Task.Throw e =>
        Task.value o
          = Task.Throw
              (Task.ErrorObject "Error"
                 ("备份并重启失败: " ++ Task.message_or_String e)) /\
        existsb is_success_toast (Task.emitted o) = false /\
        List.length (filter is_ui_error_log (Task.emitted o)) = 2
    end.
Proof.
  intros S answer s o. subst o.
  destruct answer; unfold_task; cbn; repeat split.
Qed.

(** X19: the loading flag of "login new account" is always lowered.
    [backupAndRestartAntigravity] of the hook never throws; it raises
    [isProcessLoading] once and lowers it once, at the end, on success
    and on failure alike.  On failure the user sees one error toast with
    the service's message and no refresh is scheduled; on success the
    backend's result is toasted and the refresh timer is set. *)
Theorem hook_backupAndRestart_contract :
  forall (answer : Task.result string) (st : Process.State),
    let o := Process.backupAndRestartAntigravity answer st in
    Task.value o = Task.Ok tt /\
    Process.isProcessLoading (Task.after o) = false /\
    filter is_set_flag (Task.emitted o)
      = [UiSetFlag "isProcessLoading" true; UiSetFlag "isProcessLoading" false] /\
    match answer with
    | Task.Ok result =>
        filter is_toast (Task.emitted o)
          = [UiToast Loading "正在备份当前用户并注销...";
             UiToast Plain "正在关闭 Antigravity 进程...";
             UiToast Success result] /\
        filter is_timer (Task.emitted o) = [UiTimer 1000 "执行界面刷新"]
    | Task.Throw e =>
        filter is_toast (Task.emitted o)
          = [UiToast Loading "正在备份当前用户并注销...";
             UiToast Plain "正在关闭 Antigravity 进程...";
             UiToast Failure ("备份并重启失败: " ++ Task.message_or_String e)] /\
        filter is_timer (Task.emitted o) = []
    end.
Proof.
  intros answer st o. subst o.
  destruct answer; unfold_task; cbn; repeat split.
Qed.

(** X20: the tray switch is single-flight.  While a change is in
    progress, or when the switch is disabled, [handleCheckedChange] does
    nothing at all: the parent's handler is not called and the state is
    untouched. *)
Theorem tray_switch_guard :
  forall (disabled : bool) (onCheckedChange : Task.result unit)
         (st : TraySwitch.State),
    TraySwitch.isChanging st = true \/ disabled = true ->
    TraySwitch.handleCheckedChange disabled onCheckedChange st
      = Task.Build_Out (Task.Ok tt) st [].
Proof.
  intros disabled onCheckedChange [changing] [H | H]; cbn in H; subst.
  - reflexivity.
  - unfold_task. cbn. rewrite orb_true_r. reflexivity.
Qed.

Lemma tray_switch_guard_witness :
  TraySwitch.handleCheckedChange false (Task.Ok tt)
    {| TraySwitch.isChanging := true |}
  = Task.Build_Out (Task.Ok tt) {| TraySwitch.isChanging := true |} [].
Proof.
  apply (tray_switch_guard false (Task.Ok tt)
           {| TraySwitch.isChanging := true |}).
  left. reflexivity.
Defined.

(** X21: a change that goes through always releases the switch.  When
    the switch is idle and enabled, [handleCheckedChange] raises
    [isChanging], calls the parent's handler once, shows the error toast
    exactly when that handler rejects, lowers [isChanging] at the end in
    both cases and never throws; while [isChanging] is raised the switch
    is rendered disabled. *)
Theorem tray_switch_releases :
  forall (onCheckedChange : Task.result unit) (st : TraySwitch.State),
    TraySwitch.isChanging st = false ->
    let o := TraySwitch.handleCheckedChange false onCheckedChange st in
    Task.value o = Task.Ok tt /\
    TraySwitch.isChanging (Task.after o) = false /\
    Task.emitted o =
      (UiSetFlag "isChanging" true :: UiCall "onCheckedChange" [] ::
       match onCheckedChange with
       | Task.Ok _ => []
       | Task.Throw _ => [UiToast Failure "操作失败，请重试"]
       end ++ [UiSetFlag "isChanging" false])%list /\
    TraySwitch.root_disabled false {| TraySwitch.isChanging := true |} = true.
Proof.
  intros onCheckedChange [changing] H o. cbn in H. subst o changing.
  destruct onCheckedChange as [[] | e]; unfold_task; cbn; repeat split.
Qed.

Lemma tray_switch_releases_witness :
  let o := TraySwitch.handleCheckedChange false
             (Task.Throw (Task.Value "tray not available"))
             {| TraySwitch.isChanging := false |} in
  Task.value o = Task.Ok tt /\
  TraySwitch.isChanging (Task.after o) = false /\
  Task.emitted o =
    [UiSetFlag "isChanging" true; UiCall "onCheckedChange" [];
     UiToast Failure "操作失败，请重试"; UiSetFlag "isChanging" false] /\
  TraySwitch.root_disabled false {| TraySwitch.isChanging := true |} = true.
Proof.
  apply (tray_switch_releases (Task.Throw (Task.Value "tray not available"))
           {| TraySwitch.isChanging := false |}).
  reflexivity.
Defined.

(** X22: the tray menu always receives the e-mail addresses of the
    accounts, in order.  Both branches of the effect amount to one call
    of [TrayCommands.updateMenu] with the list of [context.email] of the
    accounts (the empty list when there are none); a failure of that
    call is only logged: the effect never throws and never shows a
    toast. *)
Theorem tray_menu_gets_all_emails :
  forall (S : Type) (updateMenu : list string -> Task.result unit)
         (accounts : list Account.AntigravityAccountData) (s : S),
    let emails :=
      map (fun user => Account.email (Account.context user)) accounts in
    let o := TrayMenu.on_accounts_change updateMenu accounts s in
    filter is_ui_call (Task.emitted o)
      = [UiCall "TrayCommands.updateMenu" emails] /\
    Task.value o = Task.Ok tt /\
    Task.after o = s /\
    existsb is_toast (Task.emitted o) = false.
Proof.
  intros S updateMenu accounts s emails o. subst o emails.
  destruct accounts as [|a l]; task_cases ltac:(repeat split; reflexivity).
Qed.

(** X23: a switch requested from the tray always ends in exactly one
    toast: the success toast naming the account when [switchToAccount]
    resolves, the failure toast with [String(error)] when it rejects.
    The listener never throws. *)
Theorem tray_switch_request_toasts_once :
  forall (S : Type) (switchToAccount : string -> Task.result unit)
         (email : string) (s : S),
    let o := TrayMenu.on_tray_switch_account switchToAccount email s in
    Task.value o = Task.Ok tt /\
    Task.after o = s /\
    filter is_ui_call (Task.emitted o) = [UiCall "switchToAccount" [email]] /\
    filter is_toast (Task.emitted o) =
      [match switchToAccount email with
       | Task.Ok _ => UiToast Success ("已切换到账户: " ++ email)
       | Task.Throw e => UiToast Failure ("切换账户失败: " ++ Task.String_of e)
       end].
Proof.
  intros S switchToAccount email s o. subst o.
  task_cases ltac:(repeat split; reflexivity).
Qed.

(* ================================================================== *)
(** ** The user panel *)
(* ================================================================== *)

(** X24: deleting a backup.  After [handleDeleteBackup name] with a
    non-empty name, [confirmDeleteBackup] asks the account store to
    delete exactly that name.  If the deletion resolves, the dialog is
    closed and the selection cleared; if it rejects, the dialog stays
    open on the same selection and the error is toasted. *)
Theorem delete_backup_flow :
  forall (account_delete : string -> Task.result unit) (name : string)
         (st : UserPanel.State),
    name <> "" ->
    let o := Task.bind (UserPanel.handleDeleteBackup name)
               (fun _ => UserPanel.confirmDeleteBackup account_delete) st in
    Task.value o = Task.Ok tt /\
    filter is_ui_call (Task.emitted o)
      = [UiCall "antigravityAccount.delete" [name]] /\
    UserPanel.isClearDialogOpen (Task.after o) = UserPanel.isClearDialogOpen st /\
    match account_delete name with
    | Task.Ok _ =>
        UserPanel.deleteDialogOpen (Task.after o) = false /\
        UserPanel.backupToDelete (Task.after o) = None /\
        existsb is_failure_toast (Task.emitted o) = false
    | Task.Throw e =>
        UserPanel.deleteDialogOpen (Task.after o) = true /\
        UserPanel.backupToDelete (Task.after o) = Some name /\
        filter is_toast (Task.emitted o)
          = [UiToast Failure ("删除备份失败: " ++ Task.String_of e)]
    end.
Proof.
  intros account_delete name st Hname o. subst o.
  apply String.eqb_neq in Hname.
  unfold_task. cbn. rewrite Hname.
  destruct (account_delete name); cbn; repeat split.
Qed.

Lemma delete_backup_flow_witness :
  let o := Task.bind (UserPanel.handleDeleteBackup "a@example.com")
             (fun _ => UserPanel.confirmDeleteBackup
                         (fun _ => Task.Throw (Task.Value "file is locked")))
             UserPanel.initial in
  Task.value o = Task.Ok tt /\
  filter is_ui_call (Task.emitted o)
    = [UiCall "antigravityAccount.delete" ["a@example.com"]] /\
  UserPanel.isClearDialogOpen (Task.after o) = false /\
  UserPanel.deleteDialogOpen (Task.after o) = true /\
  UserPanel.backupToDelete (Task.after o) = Some "a@example.com" /\
  filter is_toast (Task.emitted o)
    = [UiToast Failure "删除备份失败: file is locked"].
Proof.
  apply (delete_backup_flow
           (fun _ => Task.Throw (Task.Value "file is locked"))
           "a@example.com" UserPanel.initial).
  discriminate.
Defined.

(** X25: confirming without a selection does nothing.  When
    [backupToDelete] is [null] or the empty string,
    [confirmDeleteBackup] calls nothing, shows nothing and leaves the
    state as it is; so after [handleDeleteBackup] with an empty name the
    dialog stays open. *)
Theorem confirm_delete_without_selection :
  forall (account_delete : string -> Task.result unit) (st : UserPanel.State),
    UserPanel.backupToDelete st = None \/
    UserPanel.backupToDelete st = Some "" ->
    UserPanel.confirmDeleteBackup account_delete st
      = Task.Build_Out (Task.Ok tt) st [].
Proof.
  intros account_delete [c d b] [H | H]; cbn in H; subst; reflexivity.
Qed.

Lemma confirm_delete_without_selection_witness :
  let o := Task.bind (UserPanel.handleDeleteBackup "")
             (fun _ => UserPanel.confirmDeleteBackup (fun _ => Task.Ok tt))
             UserPanel.initial in
  UserPanel.deleteDialogOpen (Task.after o) = true /\
  existsb is_ui_call (Task.emitted o) = false /\
  UserPanel.confirmDeleteBackup (fun _ => Task.Ok tt) (Task.after o)
    = Task.Build_Out (Task.Ok tt) (Task.after o) [].
Proof.
  split; [reflexivity|]. split; [reflexivity|].
  apply (confirm_delete_without_selection (fun _ => Task.Ok tt)).
  right. reflexivity.
Defined.

(** X26: clearing all backups.  With no users,
    [handleClearAllBackups] shows an error toast and does not open the
    confirmation dialog; with users it opens it and shows nothing.
    [confirmClearAllBackups] closes the dialog only when the store's
    [clearAllUsers] resolves; when it rejects the dialog is left as it is
    and the error is toasted.  Neither touches the delete dialog. *)
Theorem clear_all_backups_flow :
  forall (users_length : nat) (account_clearAllUsers : Task.result unit)
         (st : UserPanel.State),
    (let o := UserPanel.handleClearAllBackups users_length st in
     if (users_length =? 0)%nat
     then Task.after o = st /\
          Task.emitted o = [UiToast Failure "当前没有用户备份可清空"]
     else UserPanel.isClearDialogOpen (Task.after o) = true /\
          existsb is_toast (Task.emitted o) = false) /\
    (let o := UserPanel.confirmClearAllBackups account_clearAllUsers st in
     Task.value o = Task.Ok tt /\
     UserPanel.deleteDialogOpen (Task.after o) = UserPanel.deleteDialogOpen st /\
     UserPanel.backupToDelete (Task.after o) = UserPanel.backupToDelete st /\
     match account_clearAllUsers with
     | Task.Ok _ =>
         UserPanel.isClearDialogOpen (Task.after o) = false /\
         filter is_toast (Task.emitted o) = [UiToast Success "清空所有备份成功"]
     | Task.Throw e =>
         Task.after o = st /\
         filter is_toast (Task.emitted o)
           = [UiToast Failure ("清空备份失败: " ++ Task.String_of e)]
     end).
Proof.
  intros users_length account_clearAllUsers st. split.
  - unfold_task. destruct (users_length =? 0)%nat; cbn; split; reflexivity.
  - destruct account_clearAllUsers; unfold_task; cbn; repeat split.
Qed.

(* ================================================================== *)
(** ** The store of available models *)
(* ================================================================== *)

Lemma lookup_assign_same (Response : Type) (key : string) (v : Response)
    (data : AvailableModels.Data Response) :
  AvailableModels.lookup Response key (AvailableModels.assign Response key v data)
  = Some v.
Proof.
  induction data as [|[k old] rest IH]; cbn.
  - rewrite String.eqb_refl. reflexivity.
  - destruct (String.eqb key k) eqn:E; cbn; rewrite E; [reflexivity | exact IH].
Qed.

Lemma lookup_assign_other (Response : Type) (key other : string) (v : Response)
    (data : AvailableModels.Data Response) :
  other <> key ->
  AvailableModels.lookup Response other
    (AvailableModels.assign Response key v data)
  = AvailableModels.lookup Response other data.
Proof.
  intros Hne. apply String.eqb_neq in Hne.
  induction data as [|[k old] rest IH]; cbn.
  - rewrite Hne. reflexivity.
  - destruct (String.eqb key k) eqn:E; cbn.
    + apply String.eqb_eq in E. subst k. rewrite Hne. reflexivity.
    + destruct (String.eqb other k); [reflexivity | exact IH].
Qed.

Lemma assign_keys_length (Response : Type) (key : string) (v : Response)
    (data : AvailableModels.Data Response) :
  List.length (AvailableModels.assign Response key v data) =
  match AvailableModels.lookup Response key data with
  | Some _ => List.length data
  | None => S (List.length data)
  end.
Proof.
  induction data as [|[k old] rest IH]; cbn; [reflexivity|].
  destruct (String.eqb key k); cbn; [reflexivity|].
  rewrite IH. destruct (AvailableModels.lookup Response key rest); reflexivity.
Qed.

(** X27: a successful fetch files the models under the account's
    e-mail.  When both API calls resolve, [fetchData] calls
    [loadCodeAssist] and then [fetchAvailableModels] with the account's
    access token (and the project the first call returned); afterwards
    [data] holds the response under the account's e-mail, every other
    entry is as before, and an account that was already present does not
    add an entry. *)
Theorem fetchData_files_under_email :
  forall (Response : Type)
         (loadCodeAssist : string -> Task.result string)
         (fetchAvailableModels : string -> string -> Task.result Response)
         (account : Account.AntigravityAccountData)
         (data : AvailableModels.Data Response)
         (project : string) (response : Response),
    let token := Account.access_token (Account.auth account) in
    let email := Account.email (Account.context account) in
    loadCodeAssist token = Task.Ok project ->
    fetchAvailableModels token project = Task.Ok response ->
    let o := AvailableModels.fetchData Response loadCodeAssist
               fetchAvailableModels account data in
    Task.value o = Task.Ok tt /\
    Task.emitted o =
      [UiCall "CloudCodeAPI.loadCodeAssist" [token];
       UiCall "CloudCodeAPI.fetchAvailableModels" [token; project]] /\
    AvailableModels.lookup Response email (Task.after o) = Some response /\
    (forall other : string,
        other <> email ->
        AvailableModels.lookup Response other (Task.after o)
        = AvailableModels.lookup Response other data) /\
    List.length (Task.after o) =
      match AvailableModels.lookup Response email data with
      | Some _ => List.length data
      | None => S (List.length data)
      end.
Proof.
  intros Response loadCodeAssist fetchAvailableModels account data project
    response token email H1 H2 o.
  subst o. unfold_task. cbn. fold token. rewrite H1. cbn. rewrite H2. cbn.
  fold email.
  split; [reflexivity|]. split; [reflexivity|].
  split; [apply lookup_assign_same|].
  split; [intros other Hne; apply lookup_assign_other; exact Hne|].
  apply assign_keys_length.
Qed.

Lemma fetchData_files_under_email_witness :
  let account := sample_account "a@example.com" "token-a" in
  let data := [("a@example.com", 1); ("b@example.com", 2)] in
  let o := AvailableModels.fetchData nat (fun _ => Task.Ok "project-1")
             (fun _ _ => Task.Ok 7) account data in
  Task.value o = Task.Ok tt /\
  Task.emitted o =
    [UiCall "CloudCodeAPI.loadCodeAssist" ["token-a"];
     UiCall "CloudCodeAPI.fetchAvailableModels" ["token-a"; "project-1"]] /\
  AvailableModels.lookup nat "a@example.com" (Task.after o) = Some 7 /\
  (forall other : string,
      other <> "a@example.com" ->
      AvailableModels.lookup nat other (Task.after o)
      = AvailableModels.lookup nat other data) /\
  List.length (Task.after o) = 2.
Proof.
  apply (fetchData_files_under_email nat (fun _ => Task.Ok "project-1")
           (fun _ _ => Task.Ok 7) (sample_account "a@example.com" "token-a")
           [("a@example.com", 1); ("b@example.com", 2)] "project-1" 7);
    reflexivity.
Defined.

(** X28: a failed fetch changes nothing.  When [loadCodeAssist]
    rejects, [fetchAvailableModels] is never called; when either call
    rejects, [fetchData] rejects with that same error and [data] is
    exactly as before. *)
Theorem fetchData_failure_keeps_data :
  forall (Response : Type)
         (loadCodeAssist : string -> Task.result string)
         (fetchAvailableModels : string -> string -> Task.result Response)
         (account : Account.AntigravityAccountData)
         (data : AvailableModels.Data Response) (e : Task.thrown),
    let token := Account.access_token (Account.auth account) in
    let o := AvailableModels.fetchData Response loadCodeAssist
               fetchAvailableModels account data in
    (loadCodeAssist token = Task.Throw e ->
     Task.value o = Task.Throw e /\ Task.after o = data /\
     Task.emitted o = [UiCall "CloudCodeAPI.loadCodeAssist" [token]]) /\
    (forall project : string,
        loadCodeAssist token = Task.Ok project ->
        fetchAvailableModels token project = Task.Throw e ->
        Task.value o = Task.Throw e /\ Task.after o = data).
Proof.
  intros Response loadCodeAssist fetchAvailableModels account data e token o.
  subst o. split.
  - intros H. unfold_task. cbn. fold token. rewrite H. cbn. repeat split.
  - intros project H1 H2. unfold_task. cbn. fold token. rewrite H1. cbn.
    rewrite H2. cbn. split; reflexivity.
Qed.

Lemma fetchData_failure_keeps_data_witness :
  let account := sample_account "a@example.com" "token-a" in
  let data := [("b@example.com", 2)] in
  let o := AvailableModels.fetchData nat
             (fun _ => Task.Throw (Task.Value "401"))
             (fun _ _ => Task.Ok 7) account data in
  Task.value o = Task.Throw (Task.Value "401") /\
  Task.after o = data /\
  Task.emitted o = [UiCall "CloudCodeAPI.loadCodeAssist" ["token-a"]].
Proof.
  apply (proj1 (fetchData_failure_keeps_data nat
                  (fun _ => Task.Throw (Task.Value "401"))
                  (fun _ _ => Task.Ok 7)
                  (sample_account "a@example.com" "token-a")
                  [("b@example.com", 2)] (Task.Value "401"))).
  reflexivity.
Defined.

(* ================================================================== *)
(** ** The update handlers of the toolbar *)
(* ================================================================== *)

(** X29: update failures stay silent.  [handleStartDownload] and
    [handleInstallAndRelaunch] never throw; when the download or the
    installation rejects they only log an error: no failure toast is
    ever shown, and the "download complete" toast appears only after a
    download that resolved. *)
Theorem update_handlers_swallow_failures :
  forall (S : Type) (startDownload installAndRelaunch : Task.result unit)
         (s : S),
    let d := Toolbar.handleStartDownload startDownload s in
    let i := Toolbar.handleInstallAndRelaunch installAndRelaunch s in
    Task.value d = Task.Ok tt /\
    Task.value i = Task.Ok tt /\
    existsb is_failure_toast (Task.emitted d) = false /\
    existsb is_failure_toast (Task.emitted i) = false /\
    existsb is_success_toast (Task.emitted d) =
      match startDownload with Task.Ok _ => true | Task.Throw _ => false end /\
    existsb is_ui_error_log (Task.emitted d) =
      match startDownload with Task.Ok _ => false | Task.Throw _ => true end /\
    existsb is_ui_error_log (Task.emitted i) =
      match installAndRelaunch with Task.Ok _ => false | Task.Throw _ => true end.
Proof.
  intros S startDownload installAndRelaunch s d i. subst d i.
  destruct startDownload as [[] | e1], installAndRelaunch as [[] | e2];
    unfold_task; cbn; repeat split.
Qed.

(* ================================================================== *)
(** ** What the structural check accepts *)
(* ================================================================== *)

(** X30: the structural check of the import callback accepts exactly
    the objects that have a truthy [version] and an array under
    [backups], and hands that array on.  So [null], arrays, strings and
    numbers are rejected, as is an object whose [version] is the empty
    string, [0], [false] or [null]; an empty [backups] array is
    accepted. *)
Theorem validate_config_accepts_exactly :
  forall (c : JS.value) (items : list JS.value),
    validate_config c = JS.Ok items <->
    exists fields : list (string * JS.value),
      c = JS.Obj fields /\
      JS.truthy_opt (JS.assoc "version" fields) = true /\
      JS.assoc "backups" fields = Some (JS.Arr items).
Proof.
  intros c items. rewrite validate_config_Ok_iff. split.
  - intros [Hv Hb]. destruct c; cbn in Hv; try discriminate.
    exists fields. auto.
  - intros (fields & Hc & Hv & Hb). subst c. cbn. auto.
Qed.

Lemma validate_config_accepts_exactly_witness :
  validate_config
    (JS.Obj [("version", JS.Str "1.1.0"); ("backups", JS.Arr [])])
  = JS.Ok [] /\
  (forall items : list JS.value,
      validate_config (JS.Obj [("version", JS.Str ""); ("backups", JS.Arr [])])
      <> JS.Ok items) /\
  (forall items : list JS.value,
      validate_config (JS.Arr [JS.Str "1.1.0"]) <> JS.Ok items).
Proof.
  split; [|split].
  - apply (proj2 (validate_config_accepts_exactly
                    (JS.Obj [("version", JS.Str "1.1.0"); ("backups", JS.Arr [])])
                    [])).
    exists [("version", JS.Str "1.1.0"); ("backups", JS.Arr [])].
    repeat split.
  - intros items H.
    apply (proj1 (validate_config_accepts_exactly _ items)) in H.
    destruct H as (fields & Hc & Hv & _). inversion Hc. subst fields.
    discriminate Hv.
  - intros items H.
    apply (proj1 (validate_config_accepts_exactly _ items)) in H.
    destruct H as (fields & Hc & _). discriminate Hc.
Defined.
